(** * rmsd_plot: the data extractor and its command-line pipeline

    A shallow embedding of [rmsd_plot.py].  The program reads a
    whitespace-delimited table with [numpy.genfromtxt], drops the rows that
    hold a NaN, builds a two-column data frame (frames, RMSD), logs the number
    of rows and hands the frame to a seaborn line plot.

    Layout of the development:
    - [Text]    : Python's string operations used on the way (universal
                  newlines, [str.strip], [str.split], [os.path]);
    - [PyFloat] : Python floats as IEEE binary64 values ([spec_float]),
                  the [float(str)] constructor and numpy's cast to int64;
    - [Numpy]   : [genfromtxt] (tokenising, column check, loose conversion,
                  squeeze) and the array operations of [extract_data];
    - [Rmsd]    : the program itself over an explicit world (files,
                  directories, console, root logger);
    - the vocabulary of the statements, the lemmas and the theorems.

    What the embedding takes from outside the repository, and how:
    - the input is ASCII text in a local, uncompressed file;
    - [float] rounds a decimal literal to the nearest binary64 value, ties
      to even, and accepts the grammar of the language reference;
    - [genfromtxt] is followed as numpy implements it for these arguments:
      lines without values are skipped, a line with another number of
      values than the first is an error, a value that [float] refuses
      becomes NaN, and the result is squeezed;
    - the cast of a float64 to [int] is the one to int64;
    - a file is opened for writing only in a directory that exists and
      never on a directory; permission to write is assumed;
    - [savefig] takes the format from the extension of the file name, in
      lower case, and writes the file types of matplotlib's canvas;
    - the clock, the colours known to the plotting backend, the bytes of a
      figure and the current directory are parameters of the program. *)

From Stdlib Require Import ZArith Lia List Bool Ascii String DecimalString.
From Stdlib Require Import Floats.SpecFloat.
From stdpp Require Import base option list strings gmap.

Local Open Scope string_scope.

(* ===================================================================== *)
(** * Text: the string operations of the Python runtime                    *)
(* ===================================================================== *)

Module Text.

Definition LF  : ascii := Ascii.ascii_of_nat 10.
Definition CR  : ascii := Ascii.ascii_of_nat 13.
Definition TAB : ascii := Ascii.ascii_of_nat 9.
Definition DQUOTE : ascii := Ascii.ascii_of_nat 34.

Definition nl : string := String LF EmptyString.

(** [str.isspace] on the ASCII range: TAB, LF, VT, FF, CR, the four
    separators FS GS RS US, and the space. *)
Definition is_space (c : ascii) : bool :=
  let n := Ascii.nat_of_ascii c in
  ((9 <=? n)%nat && (n <=? 13)%nat) || ((28 <=? n)%nat && (n <=? 32)%nat).

(** The characters removed by [line.strip(" \r\n")]. *)
Definition is_strip_char (c : ascii) : bool :=
  Ascii.eqb c " " || Ascii.eqb c CR || Ascii.eqb c LF.

Definition string_eqb (a b : string) : bool := String.eqb a b.

(** Iterating a file opened in text mode: universal newlines, every line
    ends with a line feed except possibly the last one. *)
Fixpoint readlines_from (cur : string) (s : string) : list string :=
  match s with
  | EmptyString => if string_eqb cur "" then [] else [cur]
  | String c rest =>
      if Ascii.eqb c LF then (cur +:+ nl) :: readlines_from "" rest
      else if Ascii.eqb c CR then
        match rest with
        | String c' rest' =>
            if Ascii.eqb c' LF then (cur +:+ nl) :: readlines_from "" rest'
            else (cur +:+ nl) :: readlines_from "" rest
        | EmptyString => [cur +:+ nl]
        end
      else readlines_from (cur +:+ String c "") rest
  end.

Definition readlines (s : string) : list string := readlines_from "" s.

(** [s.lstrip(chars)], [s.rstrip(chars)], [s.strip(chars)]. *)
Fixpoint lstrip (p : ascii -> bool) (s : string) : string :=
  match s with
  | EmptyString => EmptyString
  | String c rest => if p c then lstrip p rest else s
  end.

Fixpoint rstrip (p : ascii -> bool) (s : string) : string :=
  match s with
  | EmptyString => EmptyString
  | String c rest =>
      match rstrip p rest with
      | EmptyString => if p c then EmptyString else String c EmptyString
      | r => String c r
      end
  end.

Definition strip (p : ascii -> bool) (s : string) : string :=
  rstrip p (lstrip p s).

(** [s.split()] with no separator: the maximal runs of non-space
    characters, in order; never an empty token. *)
Fixpoint split_from (cur : string) (s : string) : list string :=
  match s with
  | EmptyString => if string_eqb cur "" then [] else [cur]
  | String c rest =>
      if is_space c
      then (if string_eqb cur "" then split_from "" rest
            else cur :: split_from "" rest)
      else split_from (cur +:+ String c "") rest
  end.

Definition split (s : string) : list string := split_from "" s.

(** [sep.join(parts)]. *)
Fixpoint join (sep : string) (parts : list string) : string :=
  match parts with
  | [] => ""
  | [p] => p
  | p :: rest => p +:+ sep +:+ join sep rest
  end.

(** [s.rfind(c)] for a single character, [None] standing for -1. *)
Fixpoint rfind_from (c : ascii) (i : nat) (s : string) : option nat :=
  match s with
  | EmptyString => None
  | String d rest =>
      match rfind_from c (S i) rest with
      | Some j => Some j
      | None => if Ascii.eqb d c then Some i else None
      end
  end.

Definition rfind (c : ascii) (s : string) : option nat := rfind_from c 0 s.

Definition take (n : nat) (s : string) : string := String.substring 0 n s.
Definition drop (n : nat) (s : string) : string :=
  String.substring n (String.length s - n) s.

Definition all_chars (p : ascii -> bool) (s : string) : bool :=
  forallb p (list_ascii_of_string s).

Definition ends_with (c : ascii) (s : string) : bool :=
  match rev (list_ascii_of_string s) with
  | d :: _ => Ascii.eqb d c
  | [] => false
  end.

Definition starts_with (c : ascii) (s : string) : bool :=
  match s with
  | String d _ => Ascii.eqb d c
  | EmptyString => false
  end.

(** ** [os.path] on POSIX *)

(** [posixpath.dirname]: everything up to the last slash, with trailing
    slashes removed unless the head consists of slashes only. *)
Definition dirname (p : string) : string :=
  let i := match rfind "/" p with Some j => S j | None => 0%nat end in
  let head := take i p in
  if negb (string_eqb head "") && negb (all_chars (Ascii.eqb "/") head)
  then rstrip (Ascii.eqb "/") head
  else head.

(** [posixpath.basename]. *)
Definition basename (p : string) : string :=
  let i := match rfind "/" p with Some j => S j | None => 0%nat end in
  drop i p.

(** The leading-dot scan of [genericpath._splitext]: is there a
    character other than a dot in [p[from:upto]]? *)
Fixpoint has_non_dot (p : string) (from count : nat) : bool :=
  match count with
  | O => false
  | S k =>
      match String.get from p with
      | Some c => if Ascii.eqb c "." then has_non_dot p (S from) k else true
      | None => true
      end
  end.

(** [posixpath.splitext]: the extension starts at the last dot of the
    last path component, leading dots of that component not counting. *)
Definition splitext (p : string) : string * string :=
  let filename_index := match rfind "/" p with Some j => S j | None => 0%nat end in
  match rfind "." p with
  | Some dot_index =>
      if (filename_index <=? dot_index)%nat
         && has_non_dot p filename_index (dot_index - filename_index)
      then (take dot_index p, drop dot_index p)
      else (p, "")
  | None => (p, "")
  end.

(** [posixpath.join] of two components. *)
Definition path_join (a b : string) : string :=
  if starts_with "/" b then b
  else if string_eqb a "" || ends_with "/" a then a +:+ b
  else a +:+ "/" +:+ b.

End Text.


(* ===================================================================== *)
(** * PyFloat: Python floats, [float(str)] and the cast to int64           *)
(* ===================================================================== *)

Module PyFloat.
Import Text.

(** A Python float is an IEEE 754 binary64 value. *)
Definition prec : Z := 53.
Definition emax : Z := 1024.

Abbreviation pyfloat := spec_float.

Definition nan : pyfloat := S754_nan.

(** [numpy.isnan]. *)
Definition isnan (x : pyfloat) : bool :=
  match x with S754_nan => true | _ => false end.

(** [math.isfinite]. *)
Definition isfinite (x : pyfloat) : bool :=
  match x with S754_zero _ | S754_finite _ _ _ => true | _ => false end.

(** ** Decimal to binary64, correctly rounded (round half to even)

    The value is [(-1)^neg * m * 10^e10].  A non-negative decimal exponent
    gives an integer, which is rounded; a negative one gives a quotient,
    which is rounded from its integer part and the position of the
    remainder. *)
Definition of_decimal (neg : bool) (m : Z) (e10 : Z) : pyfloat :=
  match m with
  | Zpos _ =>
      if (0 <=? e10)%Z
      then binary_normalize prec emax (cond_Zopp neg (m * 10 ^ e10)) 0 neg
      else
        let '(q, e, l) := SFdiv_core_binary prec emax m 0 (10 ^ (- e10)) 0 in
        binary_round_aux prec emax neg q e l
  | _ => S754_zero neg
  end.

(** ** The grammar of [float(str)]

<<
    floatvalue  ::= [sign] (floatnumber | "inf" | "infinity" | "nan")
    floatnumber ::= number [exponent]
    number      ::= [digitpart] "." digitpart | digitpart ["."]
    exponent    ::= ("e" | "E") [sign] digitpart
    digitpart   ::= digit (["_"] digit)*
>>
    with the three words matched without regard to case. *)

Definition digit_value (c : ascii) : option Z :=
  let n := Ascii.nat_of_ascii c in
  if (48 <=? n)%nat && (n <=? 57)%nat then Some (Z.of_nat (n - 48)) else None.

(** The rest of a digitpart after its first digit: [acc] is the value read
    so far and [k] the number of digits read so far. *)
Fixpoint digits_rest (acc : Z) (k : nat) (s : list ascii) : Z * nat * list ascii :=
  match s with
  | c :: rest =>
      match digit_value c with
      | Some d => digits_rest (10 * acc + d) (S k) rest
      | None =>
          if Ascii.eqb c "_" then
            match rest with
            | c' :: rest' =>
                match digit_value c' with
                | Some d => digits_rest (10 * acc + d) (S k) rest'
                | None => (acc, k, s)
                end
            | [] => (acc, k, s)
            end
          else (acc, k, s)
      end
  | [] => (acc, k, s)
  end.

(** A digitpart continuing the value [acc]: its value, its number of
    digits and the rest of the input; [None] when the input does not start
    with a digit. *)
Definition digitpart (acc : Z) (s : list ascii) : option (Z * nat * list ascii) :=
  match s with
  | c :: rest =>
      match digit_value c with
      | Some d => Some (digits_rest (10 * acc + d) 1 rest)
      | None => None
      end
  | [] => None
  end.

Definition sign (s : list ascii) : bool * list ascii :=
  match s with
  | c :: rest =>
      if Ascii.eqb c "-" then (true, rest)
      else if Ascii.eqb c "+" then (false, rest)
      else (false, s)
  | [] => (false, s)
  end.

(** [number]: the digits as one integer and the number of digits after
    the point. *)
Definition number (s : list ascii) : option (Z * nat * list ascii) :=
  match digitpart 0 s with
  | Some (i, _, rest) =>
      match rest with
      | c :: rest' =>
          if Ascii.eqb c "." then
            match digitpart i rest' with
            | Some (m, nf, rest'') => Some (m, nf, rest'')
            | None => Some (i, O, rest')
            end
          else Some (i, O, rest)
      | [] => Some (i, O, rest)
      end
  | None =>
      match s with
      | c :: rest' =>
          if Ascii.eqb c "." then digitpart 0 rest' else None
      | [] => None
      end
  end.

(** [exponent], when there is one; the whole rest must be consumed. *)
Definition exponent (s : list ascii) : option Z :=
  match s with
  | [] => Some 0%Z
  | c :: rest =>
      if Ascii.eqb c "e" || Ascii.eqb c "E" then
        let '(neg, rest') := sign rest in
        match digitpart 0 rest' with
        | Some (e, _, []) => Some (if neg then (- e)%Z else e)
        | _ => None
        end
      else None
  end.

Definition lower (c : ascii) : ascii :=
  let n := Ascii.nat_of_ascii c in
  if (65 <=? n)%nat && (n <=? 90)%nat then Ascii.ascii_of_nat (n + 32) else c.

(** [float(s)] for a string without surrounding white space: [None]
    stands for the [ValueError] raised on a string outside the grammar. *)
Definition float_of_string (s : string) : option pyfloat :=
  let '(neg, body) := sign (list_ascii_of_string s) in
  let word := string_of_list_ascii (map lower body) in
  if string_eqb word "inf" || string_eqb word "infinity" then Some (S754_infinity neg)
  else if string_eqb word "nan" then Some S754_nan
  else
    match number body with
    | Some (m, nf, rest) =>
        match exponent rest with
        | Some e => Some (of_decimal neg m (e - Z.of_nat nf))
        | None => None
        end
    | None => None
    end.

(** ** [ndarray.astype(int)] on a float64 element

    The C conversion truncates toward zero.  A NaN, an infinity or a value
    outside the int64 range has no defined result in C; the value modelled
    for them is the one x86-64 and numpy on it produce, the least int64. *)
Definition int64_min : Z := - 2 ^ 63.
Definition int64_max : Z := 2 ^ 63 - 1.

Definition truncate (x : pyfloat) : option Z :=
  match x with
  | S754_zero _ => Some 0%Z
  | S754_finite s m e =>
      let a := if (0 <=? e)%Z then (Zpos m * 2 ^ e)%Z else (Zpos m / 2 ^ (- e))%Z in
      Some (if s then (- a)%Z else a)
  | _ => None
  end.

Definition astype_int (x : pyfloat) : Z :=
  match truncate x with
  | Some t => if (int64_min <=? t)%Z && (t <=? int64_max)%Z then t else int64_min
  | None => int64_min
  end.

(** A finite value with a fractional part. *)
Definition is_integral (x : pyfloat) : bool :=
  match x with
  | S754_zero _ => true
  | S754_finite _ m e => (0 <=? e)%Z || (Zpos m mod 2 ^ (- e) =? 0)%Z
  | _ => false
  end.

End PyFloat.

(* ===================================================================== *)
(** * Exceptions and results                                               *)
(* ===================================================================== *)

(** The exceptions the program can meet.  [InvalidLines] is the
    [ValueError] of [genfromtxt] ("Some errors were detected !"), carrying
    the expected number of columns and, per offending line, its number and
    its number of values; [InvalidColor] is the [ValueError] of the plotting
    call, [UnsupportedFormat] the [ValueError] of [savefig]. *)
Inductive exn : Type :=
  | FileNotFoundError (path : string)
  | PermissionError (path : string)
  | FileExistsError (path : string)
  | IsADirectoryError (path : string)
  | NotADirectoryError (path : string)
  | InvalidLines (nbcols : nat) (invalid : list (nat * nat))
  | AxisError (axis ndim : nat)
  | IndexError (index size : nat)
  | KeyError
  | InvalidColor (color : string)
  | UnsupportedFormat (format : string)
  | ArgumentTypeError (msg : string)
  | SystemExit (code : Z).

Inductive result (A : Type) : Type :=
  | Ok (a : A)
  | Raise (e : exn).
Arguments Ok {A} a.
Arguments Raise {A} e.

Definition is_ok {A} (r : result A) : bool :=
  match r with Ok _ => true | Raise _ => false end.

Definition result_bind {A B} (r : result A) (k : A -> result B) : result B :=
  match r with
  | Ok a => k a
  | Raise e => Raise e
  end.

(* ===================================================================== *)
(** * Numpy: [genfromtxt] and the array operations of [extract_data]       *)
(* ===================================================================== *)

Module Numpy.
Import Text PyFloat.

(** ** [LineSplitter] with [delimiter=None], [comments=None] *)
Definition split_line (line : string) : list string :=
  let line := strip is_strip_char line in
  if string_eqb line "" then [] else split line.

(** The search for the first line that holds values: the lines from that
    one on (nothing when there is none, the "Empty input file" warning). *)
Fixpoint from_first_values (lines : list string) : list string :=
  match lines with
  | [] => []
  | line :: rest =>
      match split_line line with
      | [] => from_first_values rest
      | _ :: _ => lines
      end
  end.

(** The parsing loop over [enumerate(chain([first_line], fhd))], [i]
    being the index of the head of [lines]: empty lines are skipped, a line
    with another number of values than [nbcols] is recorded as invalid
    under the number [i + 1], the others are stored. *)
Fixpoint parse_lines (nbcols : nat) (i : nat) (lines : list string)
  : list (list string) * list (nat * nat) :=
  match lines with
  | [] => ([], [])
  | line :: rest =>
      let values := split_line line in
      let nbvalues := length values in
      let '(rows, invalid) := parse_lines nbcols (S i) rest in
      if (nbvalues =? 0)%nat then (rows, invalid)
      else if negb (nbvalues =? nbcols)%nat then (rows, (i + 1, nbvalues)%nat :: invalid)
      else (values :: rows, invalid)
  end.

(** [StringConverter._loose_call] of the float64 converter: [float], and
    the default [nan] on [ValueError]. *)
Definition loose_call (value : string) : pyfloat :=
  match float_of_string value with
  | Some x => x
  | None => nan
  end.

(** ** Arrays of float64 of dimension 0, 1 and 2

    [Array2 ncols rows] has shape [(length rows, ncols)]. *)
Inductive ndarray : Type :=
  | Array0 (x : pyfloat)
  | Array1 (v : list pyfloat)
  | Array2 (ncols : nat) (rows : list (list pyfloat)).

Definition ndim (a : ndarray) : nat :=
  match a with Array0 _ => 0 | Array1 _ => 1 | Array2 _ _ => 2 end.

(** [np.array(rows, dtype)] for a list of equally long tuples. *)
Definition np_array (nbcols : nat) (rows : list (list pyfloat)) : ndarray :=
  match rows with
  | [] => Array1 []
  | _ :: _ => Array2 nbcols rows
  end.

Definition item0 (r : list pyfloat) : pyfloat := List.nth 0 r nan.

(** [np.squeeze]: every axis of length one is removed. *)
Definition squeeze (a : ndarray) : ndarray :=
  match a with
  | Array0 _ => a
  | Array1 [x] => Array0 x
  | Array1 _ => a
  | Array2 ncols rows =>
      match rows, ncols with
      | [r], 1%nat => Array0 (item0 r)
      | [r], _ => Array1 r
      | _, 1%nat => Array1 (map item0 rows)
      | _, _ => a
      end
  end.

(** [numpy.genfromtxt(f, missing_values="NA", dtype=float, comments=None)]
    on the lines of the file. *)
Definition genfromtxt_lines (lines : list string) : result ndarray :=
  let body := from_first_values lines in
  let first_values := match body with [] => [] | line :: _ => split_line line end in
  let nbcols := length first_values in
  let '(rows, invalid) := parse_lines nbcols 0 body in
  match invalid with
  | _ :: _ => Raise (InvalidLines nbcols invalid)
  | [] =>
      let data := map (map loose_call) rows in
      Ok (squeeze (np_array nbcols data))
  end.

(** [numpy.isnan(data).any(axis=1)]. *)
Definition isnan_any_axis1 (data : ndarray) : result (list bool) :=
  match data with
  | Array2 _ rows => Ok (map (existsb isnan) rows)
  | _ => Raise (AxisError 1 (ndim data))
  end.

(** [data[~mask]] for a two-dimensional [data] and a mask over its rows. *)
Fixpoint select_not (mask : list bool) (rows : list (list pyfloat)) : list (list pyfloat) :=
  match mask, rows with
  | m :: mask', r :: rows' =>
      if m then select_not mask' rows' else r :: select_not mask' rows'
  | _, _ => []
  end.

Definition index_not (data : ndarray) (mask : list bool) : ndarray :=
  match data with
  | Array2 ncols rows => Array2 ncols (select_not mask rows)
  | _ => data
  end.

(** [data[:, j]]. *)
Definition column (j : nat) (data : ndarray) : result (list pyfloat) :=
  match data with
  | Array2 ncols rows =>
      if (j <? ncols)%nat then Ok (map (fun r => List.nth j r nan) rows)
      else Raise (IndexError j ncols)
  | _ => Raise (IndexError 1 (ndim data))
  end.

End Numpy.

(* ===================================================================== *)
(** * Rmsd: the program over an explicit world                             *)
(* ===================================================================== *)

Module Rmsd.
Import Text PyFloat Numpy.

(** ** Logging levels *)
Inductive Level : Type := DEBUG | INFO | WARNING | ERROR | CRITICAL.

Definition level_no (l : Level) : nat :=
  match l with
  | DEBUG => 10 | INFO => 20 | WARNING => 30 | ERROR => 40 | CRITICAL => 50
  end.

Definition level_name (l : Level) : string :=
  match l with
  | DEBUG => "DEBUG" | INFO => "INFO" | WARNING => "WARNING"
  | ERROR => "ERROR" | CRITICAL => "CRITICAL"
  end.

(** ** The root logger

    [TimedFormat] is the format set by [create_log],
    ["%(asctime)s %(levelname)s:\t%(message)s"]; [BasicFormat] is the
    default of [logging.basicConfig()],
    ["%(levelname)s:%(name)s:%(message)s"]. *)
Inductive handler : Type :=
  | FileHandler (path : string)
  | StreamHandler.

Inductive formatter : Type := TimedFormat | BasicFormat.

Record root_logger : Type := {
  level : Level;
  handlers : list handler;
  fmt : formatter
}.

(** ** The world: what the process can observe and change

    Paths are compared as written (no links, no normalisation).  [files]
    are the regular files and their contents, [dirs] the directories that
    exist beside the current directory and the root; a file is opened for
    writing only in a directory that exists, permission to write being
    assumed.  [unreadable] are the paths the process may not read.  [stderr] is the console stream, one entry per message.
    [log_records] counts the log records created so far: the clock is read
    once per record. *)
Record world : Type := {
  files : gmap string string;
  unreadable : gset string;
  dirs : gset string;
  stderr : list string;
  root : root_logger;
  log_records : nat
}.

Definition set_files (f : gmap string string → gmap string string) (w : world) : world :=
  {| files := f (files w); unreadable := unreadable w; dirs := dirs w;
     stderr := stderr w; root := root w; log_records := log_records w |}.

Definition set_dirs (f : gset string → gset string) (w : world) : world :=
  {| files := files w; unreadable := unreadable w; dirs := f (dirs w);
     stderr := stderr w; root := root w; log_records := log_records w |}.

Definition set_stderr (f : list string → list string) (w : world) : world :=
  {| files := files w; unreadable := unreadable w; dirs := dirs w;
     stderr := f (stderr w); root := root w; log_records := log_records w |}.

Definition set_root (f : root_logger → root_logger) (w : world) : world :=
  {| files := files w; unreadable := unreadable w; dirs := dirs w;
     stderr := stderr w; root := f (root w); log_records := log_records w |}.

Definition set_log_records (f : nat → nat) (w : world) : world :=
  {| files := files w; unreadable := unreadable w; dirs := dirs w;
     stderr := stderr w; root := root w; log_records := f (log_records w) |}.

(** ** Computations: a state monad over the world with exceptions

    An exception keeps the effects made before it was raised. *)
Definition M (A : Type) : Type := world → result A * world.

Definition ret {A} (a : A) : M A := fun w => (Ok a, w).
Definition raise {A} (e : exn) : M A := fun w => (Raise e, w).
Definition bind {A B} (m : M A) (k : A → M B) : M B :=
  fun w => match m w with
           | (Ok a, w') => k a w'
           | (Raise e, w') => (Raise e, w')
           end.
Definition lift {A} (r : result A) : M A := fun w => (r, w).
Definition modify (f : world → world) : M unit := fun w => (Ok tt, f w).
Definition get : M world := fun w => (Ok w, w).

(** [try: m except ValueError: h], the [ValueError]s being those of the
    plotting call. *)
Definition try_except_ValueError {A} (m : M A) (h : M A) : M A :=
  fun w => match m w with
           | (Raise (InvalidColor _), w') => h w'
           | r => r
           end.

Declare Scope M_scope.
Delimit Scope M_scope with M.
Notation "'let*' x ':=' m 'in' k" := (bind m (fun x => k))
  (at level 10, x name, m at level 100, k at level 200) : M_scope.
Notation "m ;; k" := (bind m (fun _ => k))
  (at level 100, k at level 200, right associativity) : M_scope.
Local Open Scope M_scope.

(** ** The data frame built by [extract_data] *)
Record DataFrame : Type := {
  frames : list Z;
  RMSD : list pyfloat
}.

(** [len(df)]: the length of the index, that of the columns. *)
Definition len (df : DataFrame) : nat := length (frames df).

(** The rows of the frame as (frame, RMSD) pairs. *)
Definition records_of (df : DataFrame) : list (Z * pyfloat) :=
  combine (frames df) (RMSD df).

(** The command line as [argparse] has read it, before the [type=]
    conversions: [script] is [__file__], [argv] is [sys.argv]; a run with
    [-h] or [-v], a missing required option or a log level outside the
    choices ends inside [argparse] and is not a value of this type. *)
Record namespace : Type := {
  out : string;
  title : string;
  color : string;
  log : option string;
  log_level : option Level;
  input : string
}.

Record command_line : Type := {
  script : string;
  argv : list string;
  options : namespace
}.

Definition version : string := "1.0.0".

Definition str_of_nat (n : nat) : string :=
  DecimalString.NilEmpty.string_of_uint (Nat.to_uint n).

Section Program.

(** The environment outside the repository: the clock as formatted by
    the log format's [datefmt] for the n-th record, the colours the
    plotting backend accepts, the names of [BASE_COLORS] and
    [CSS4_COLORS] sorted by hue, saturation, value and name, the bytes
    [savefig] writes, and [os.path.abspath]. *)
Variable asctime : nat → string.
Variable valid_color : string → bool.
Variable named_colors_by_hsv : list string.
Variable savefig_bytes : DataFrame → string → string → string → string.
Variable abspath : string → string.

(** *** Operating-system calls *)

(** Opening a file for reading and reading it whole: a directory is
    refused, so is a file the process may not read. *)
Definition read_file (path : string) : M string :=
  fun w =>
    match files w !! path with
    | None =>
        if bool_decide (path ∈ dirs w) then (Raise (IsADirectoryError path), w)
        else (Raise (FileNotFoundError path), w)
    | Some content =>
        if decide (path ∈ unreadable w) then (Raise (PermissionError path), w)
        else (Ok content, w)
    end.

(** The directories that exist: the current one (the empty name), the
    root (slashes only) and the members of [dirs]. *)
Definition directory_exists (d : string) (w : world) : bool :=
  string_eqb d "" || all_chars (Ascii.eqb "/") d || bool_decide (d ∈ dirs w).

(** What [open(path, mode)] checks for the modes that write: the path is
    not a directory and its directory exists. *)
Definition open_for_writing (path : string) : M unit :=
  fun w =>
    if bool_decide (path ∈ dirs w) then (Raise (IsADirectoryError path), w)
    else if directory_exists (dirname path) w then (Ok tt, w)
    else match files w !! dirname path with
         | Some _ => (Raise (NotADirectoryError path), w)
         | None => (Raise (FileNotFoundError path), w)
         end.

(** Opening a file in append mode: it is created when missing. *)
Definition open_append (path : string) : M unit :=
  bind (open_for_writing path) (fun _ =>
  modify (set_files (fun fs =>
    match fs !! path with Some _ => fs | None => <[path := ""]> fs end))).

Definition append_file (path : string) (text : string) : M unit :=
  modify (set_files (fun fs =>
    <[path := default "" (fs !! path) +:+ text]> fs)).

(** Opening a file in write mode and writing it whole. *)
Definition write_file (path : string) (content : string) : M unit :=
  bind (open_for_writing path) (fun _ =>
  modify (set_files (fun fs => <[path := content]> fs))).

(** [os.path.exists]. *)
Definition path_exists (path : string) : M bool :=
  fun w =>
    match files w !! path with
    | Some _ => (Ok true, w)
    | None => (Ok (bool_decide (path ∈ dirs w)), w)
    end.

(** [os.remove]: a directory is refused. *)
Definition os_remove (path : string) : M unit :=
  fun w =>
    match files w !! path with
    | Some _ => (Ok tt, set_files (fun fs => delete path fs) w)
    | None =>
        if bool_decide (path ∈ dirs w) then (Raise (IsADirectoryError path), w)
        else (Raise (FileNotFoundError path), w)
    end.

(** [os.makedirs(name, exist_ok=True)]: the empty name is refused, so is
    the name of a regular file; [name] is recorded in [dirs], the
    directories above it are not. *)
Definition makedirs (name : string) : M unit :=
  fun w =>
    if string_eqb name "" then (Raise (FileNotFoundError name), w)
    else
      match files w !! name with
      | Some _ => (Raise (FileExistsError name), w)
      | None => (Ok tt, set_dirs (fun d => {[name]} ∪ d) w)
      end.

Definition write_stderr (line : string) : M unit :=
  modify (set_stderr (fun l => (l ++ [line])%list)).

(** *** The [logging] module *)

Definition format_record (f : formatter) (n : nat) (l : Level) (msg : string) : string :=
  match f with
  | TimedFormat => asctime n +:+ " " +:+ level_name l +:+ ":" +:+ String TAB "" +:+ msg
  | BasicFormat => level_name l +:+ ":root:" +:+ msg
  end.

Definition emit (line : string) (h : handler) : M unit :=
  match h with
  | FileHandler path => append_file path (line +:+ nl)
  | StreamHandler => write_stderr line
  end.

Fixpoint call_handlers (line : string) (hs : list handler) : M unit :=
  match hs with
  | [] => ret tt
  | h :: hs' => emit line h ;; call_handlers line hs'
  end.

(** [logging.basicConfig(format, datefmt, level, handlers)]: nothing
    happens when the root logger already has a handler. *)
Definition basicConfig (f : formatter) (l : option Level) (hs : list handler) : M unit :=
  modify (set_root (fun r =>
    match handlers r with
    | [] => {| level := match l with Some l' => l' | None => level r end;
               handlers := hs; fmt := f |}
    | _ :: _ => r
    end)).

(** [logging.info], [logging.error]: the module-level functions
    configure a root logger without handlers, then log. *)
Definition logging_log (l : Level) (msg : string) : M unit :=
  basicConfig BasicFormat None [StreamHandler] ;;
  let* w := get in
  if (level_no (level (root w)) <=? level_no l)%nat
  then modify (set_log_records S) ;;
       call_handlers (format_record (fmt (root w)) (log_records w) l msg) (handlers (root w))
  else ret tt.

Definition logging_info := logging_log INFO.
Definition logging_error := logging_log ERROR.

(** *** [create_log]: the global [args] is read for the level

    [log_level_dict] has the five level names as keys; with a level given,
    it is indexed by [args.log_level], and the key [None] is missing. *)
Definition create_log (args : namespace) (path : string) (lvl : option Level) : M unit :=
  let* log_level_ :=
    match lvl with
    | None => ret INFO
    | Some _ =>
        match log_level args with
        | Some l => ret l
        | None => raise KeyError
        end
    end in
  let* e := path_exists path in
  (if e : bool then os_remove path else ret tt) ;;
  open_append path ;;
  basicConfig TimedFormat (Some log_level_) [FileHandler path; StreamHandler].

(** *** [restricted_extension] *)
Definition valid_extensions : list string :=
  [".jpg"; ".jpeg"; ".pdf"; ".pgf"; ".png"; ".ps"; ".raw"; ".rgba"; ".svg";
   ".svgz"; ".tif"; ".tiff"].

Definition restricted_extension (out_file : string) : result string :=
  let extension := snd (splitext out_file) in
  if negb (existsb (string_eqb extension) valid_extensions)
  then Raise (ArgumentTypeError
                (out_file +:+ " has not a valid extension. Valid extensions are: "
                 +:+ join ", " valid_extensions +:+ "."))
  else Ok out_file.

(** *** [extract_data] *)

(** The array part of [extract_data], from the array read to the frame. *)
Definition frame_of_array (data : ndarray) : result DataFrame :=
  result_bind (isnan_any_axis1 data) (fun mask =>
  let data := index_not data mask in
  result_bind (column 0 data) (fun c0 =>
  result_bind (column 1 data) (fun c1 =>
  Ok {| frames := map astype_int c0; RMSD := c1 |}))).

(** [extract_data] on the text of the file. *)
Definition extract_text (text : string) : result DataFrame :=
  result_bind (genfromtxt_lines (readlines text)) frame_of_array.

Definition extract_data (dat_file : string) : M DataFrame :=
  let* text := read_file dat_file in
  let* df := lift (extract_text text) in
  logging_info (str_of_nat (len df) +:+ " frames RMSD values extracted for the RMSD plot.") ;;
  ret df.

(** *** [plot_rmsd]: the global [args] is read for the message *)
Definition lineplot (src : DataFrame) (c : string) : M unit :=
  if valid_color c then ret tt else raise (InvalidColor c).

Definition available_colors : string :=
  fold_left (fun acc name => acc +:+ nl +:+ name) named_colors_by_hsv "".

(** [Figure.savefig(fname)]: the format is the extension of [fname] in
    lower case and must be a file type of the canvas, else [ValueError] is
    raised before anything is opened; a name without extension is written
    as PNG to the name, trailing dots removed, followed by [.png]. *)
Definition savefig_formats : list string :=
  ["eps"; "jpeg"; "jpg"; "pdf"; "pgf"; "png"; "ps"; "raw"; "rgba"; "svg"; "svgz";
   "tif"; "tiff"; "webp"].

Definition lower_case (s : string) : string :=
  string_of_list_ascii (map lower (list_ascii_of_string s)).

Definition savefig (src : DataFrame) (title_ color_ fname : string) : M unit :=
  let format := drop 1 (snd (splitext fname)) in
  if string_eqb format ""
  then let filename := rstrip (Ascii.eqb ".") fname +:+ ".png" in
       write_file filename (savefig_bytes src title_ color_ filename)
  else if existsb (string_eqb (lower_case format)) savefig_formats
       then write_file fname (savefig_bytes src title_ color_ fname)
       else raise (UnsupportedFormat (lower_case format)).

Definition plot_rmsd (args : namespace) (src : DataFrame) (out_path title_ color_ : string) : M unit :=
  try_except_ValueError
    (lineplot src color_)
    (logging_error (String DQUOTE (color args) +:+ String DQUOTE " is not a valid color. Choose a color in:"
                    +:+ available_colors) ;;
     raise (SystemExit 1)) ;;
  savefig src title_ color_ out_path ;;
  logging_info ("RMSD plot created: " +:+ abspath out_path).

(** *** The script body *)

(** [parser.parse_args()]: the [type=] conversion of [--out]; its
    [ArgumentTypeError] becomes [parser.error], a message on the console
    and exit status 2.  The console entry is the error message; the usage
    lines and the program name [argparse] prints before it, whose layout
    follows the width of the terminal, are not recorded. *)
Definition parse_args (cl : command_line) : M namespace :=
  match restricted_extension (out (options cl)) with
  | Ok _ => ret (options cl)
  | Raise (ArgumentTypeError msg) =>
      write_stderr ("error: argument -o/--out: " +:+ msg) ;;
      raise (SystemExit 2)
  | Raise e => raise e
  end.

Definition main (cl : command_line) : M unit :=
  let* args := parse_args cl in
  let out_dir := dirname (out args) in
  makedirs out_dir ;;
  let log_path :=
    match log args with
    | Some p => if string_eqb p "" then None else Some p
    | None => None
    end in
  let log_path :=
    match log_path with
    | Some p => p
    | None => path_join out_dir (fst (splitext (basename (script cl))) +:+ ".log")
    end in
  create_log args log_path (log_level args) ;;
  logging_info ("version: " +:+ version) ;;
  logging_info ("CMD: " +:+ join " " (argv cl)) ;;
  let* df_from_dat_file := extract_data (input args) in
  plot_rmsd args df_from_dat_file (out args) (title args) (color args).

(** The exit status of the process. *)
Definition exit_status (r : result unit) : Z :=
  match r with
  | Ok _ => 0
  | Raise (SystemExit code) => code
  | Raise _ => 1
  end.

End Program.

(** The world a fresh interpreter starts in: the root logger is at
    WARNING and has no handler. *)
Definition fresh_logger : root_logger :=
  {| level := WARNING; handlers := []; fmt := BasicFormat |}.

End Rmsd.

(* ===================================================================== *)
(** * The vocabulary of the statements                                     *)
(* ===================================================================== *)

Import Text PyFloat Numpy Rmsd.

(** ** The table a file holds *)

(** The data rows of a file: its lines that hold at least one value, each
    as its list of fields. *)
Definition nonblank (values : list string) : bool :=
  negb (length values =? 0)%nat.

Definition rows_of_lines (lines : list string) : list (list string) :=
  List.filter nonblank (map split_line lines).

Definition data_rows (text : string) : list (list string) :=
  rows_of_lines (readlines text).

Definition has_width (k : nat) (row : list string) : bool :=
  (length row =? k)%nat.

(** The number of fields of the first data row. *)
Definition width (rows : list (list string)) : nat :=
  length (List.hd [] rows).

(** A file [extract_data] accepts: at least two data rows, all with the
    same number of fields, and at least two fields. *)
Definition well_formed_rows (rows : list (list string)) : bool :=
  (2 <=? length rows)%nat && (2 <=? width rows)%nat && forallb (has_width (width rows)) rows.

Definition well_formed (text : string) : bool :=
  well_formed_rows (data_rows text).

(** The fields of a row as numbers; a row with a NaN in any of its fields;
    the record a row gives. *)
Definition convert_row (row : list string) : list pyfloat := map loose_call row.

Definition row_has_nan (row : list string) : bool :=
  existsb isnan (convert_row row).

Definition row_kept (row : list string) : bool := negb (row_has_nan row).

Definition record_of_row (row : list string) : Z * pyfloat :=
  (astype_int (List.nth 0 (convert_row row) nan), List.nth 1 (convert_row row) nan).

(** The frame built from the rows that are kept. *)
Definition frame_of_rows (kept : list (list string)) : DataFrame :=
  {| frames := map (fun r => fst (record_of_row r)) kept;
     RMSD := map (fun r => snd (record_of_row r)) kept |}.

(** A table error: the [ValueError] of [genfromtxt] on lines of unequal
    length, or the [AxisError] of [any(axis=1)] on an array that is not
    two-dimensional. *)
Definition is_table_error (e : exn) : bool :=
  match e with
  | InvalidLines _ (_ :: _) => true
  | AxisError 1 0 | AxisError 1 1 => true
  | _ => false
  end.

(** A row as the specification counts it: contaminated when its first or
    its second field is the sentinel or no valid number, that is, when the
    field converts to NaN. *)
Definition either_field_missing (row : list string) : bool :=
  isnan (loose_call (List.nth 0 row "")) || isnan (loose_call (List.nth 1 row "")).

(** [z] is [x] with its fractional part cut off: [|z| <= |x| < |z| + 1],
    with the sign of [x]. *)
Definition truncated_toward_zero (x : pyfloat) (z : Z) : Prop :=
  match x with
  | S754_finite s m e =>
      (Z.abs z * 2 ^ (- e) <= Zpos m < (Z.abs z + 1) * 2 ^ (- e))%Z
      ∧ (if s then z <= 0 else 0 <= z)%Z
  | _ => False
  end.

(** ** Logging *)

(** The message [extract_data] logs. *)
Definition count_message (df : DataFrame) : string :=
  str_of_nat (len df) +:+ " frames RMSD values extracted for the RMSD plot.".

(** The message [plot_rmsd] logs for a colour the backend refuses. *)
Definition invalid_color_message (named_colors_by_hsv : list string) (c : string) : string :=
  String DQUOTE c +:+ String DQUOTE " is not a valid color. Choose a color in:"
  +:+ available_colors named_colors_by_hsv.

(** The handlers of the root logger once a record has been logged: a
    logger without handler gets the console handler of [basicConfig()]. *)
Definition handlers_after_log (r : root_logger) : list handler :=
  match handlers r with
  | [] => [StreamHandler]
  | hs => hs
  end.

(** The root logger as [create_log] configures it. *)
Definition configured (lvl : Level) (log_path : string) : root_logger :=
  {| level := lvl; handlers := [FileHandler log_path; StreamHandler]; fmt := TimedFormat |}.

Definition enabled (lvl l : Level) : bool := (level_no lvl <=? level_no l)%nat.

(** One record written by the two handlers of [create_log]. *)
Definition log_to (asctime : nat → string) (log_path : string) (l : Level) (msg : string)
    (w : world) : world :=
  let line := format_record asctime TimedFormat (log_records w) l msg in
  {| files := <[log_path := default "" (files w !! log_path) +:+ (line +:+ nl)]> (files w);
     unreadable := unreadable w;
     dirs := dirs w;
     stderr := (stderr w ++ [line])%list;
     root := root w;
     log_records := S (log_records w) |}.

Definition log_if (asctime : nat → string) (lvl : Level) (log_path : string)
    (l : Level) (msg : string) (w : world) : world :=
  if enabled lvl l then log_to asctime log_path l msg w else w.




(** ** The run of [main] *)

(** The output paths [restricted_extension] accepts. *)
Definition accepted_output (out_file : string) : bool :=
  existsb (string_eqb (snd (splitext out_file))) valid_extensions.

Definition rejection_message (out_file : string) : string :=
  "error: argument -o/--out: " +:+ out_file
  +:+ " has not a valid extension. Valid extensions are: "
  +:+ join ", " valid_extensions +:+ ".".

(** The log path [main] chooses and the level it logs at. *)
Definition log_path_of (cl : command_line) : string :=
  let out_dir := dirname (out (options cl)) in
  let given :=
    match log (options cl) with
    | Some p => if string_eqb p "" then None else Some p
    | None => None
    end in
  match given with
  | Some p => p
  | None => path_join out_dir (fst (splitext (basename (script cl))) +:+ ".log")
  end.





(** ** Sample inputs *)

Definition text_of_lines (lines : list string) : string :=
  fold_right (fun line acc => line +:+ nl +:+ acc) "" lines.

(** The scenario of the specification. *)
Definition scenario_text : string := text_of_lines ["0 0.5"; "1 NA"; "2 1.2"].
(** A sentinel in a third column. *)
Definition three_column_text : string := text_of_lines ["0 0.5 NA"; "1 0.6 7"].
(** An infinite RMSD. *)
Definition infinite_text : string := text_of_lines ["0 inf"; "1 0.5"].
(** One valid row; one row with a sentinel. *)
Definition single_row_text : string := text_of_lines ["0 0.5"].
Definition single_missing_text : string := text_of_lines ["1 NA"].
(** Two rows, each with a sentinel. *)
Definition all_missing_text : string := text_of_lines ["0 NA"; "NA 0.7"].
(** Frame numbers with a fractional part. *)
Definition fractional_text : string := text_of_lines ["0.5 1.0"; "2.75 1.5"].
Definition fractional_missing_text : string := text_of_lines ["0.5 NA"; "1 0.5"; "2 0.6"].

(** The binary64 values of the literals [0.5], [0.6], [1.2], [1.0], [1.5]. *)
Definition float_0_5 : pyfloat := S754_finite false 4503599627370496 (-53).
Definition float_0_6 : pyfloat := S754_finite false 5404319552844595 (-53).
Definition float_1_2 : pyfloat := S754_finite false 5404319552844595 (-52).
Definition float_1_0 : pyfloat := S754_finite false 4503599627370496 (-52).
Definition float_1_5 : pyfloat := S754_finite false 6755399441055744 (-52).
Definition float_2_75 : pyfloat := S754_finite false 6192449487634432 (-51).

(** A clock, a palette and a backend for the sample runs. *)
Definition sample_clock (n : nat) : string := "2025/04/03 10:00:0" +:+ str_of_nat n.
Definition sample_valid_color (c : string) : bool := string_eqb c "blue" || string_eqb c "red".
Definition sample_colors : list string := ["red"; "blue"].
Definition sample_savefig (df : DataFrame) (title_ color_ out_path : string) : string := "figure".
Definition sample_abspath (p : string) : string := "/home/user/" +:+ p.

(** A world that holds the input file [rmsd.dat] and nothing else, in a
    fresh interpreter. *)
Definition sample_world (text : string) : world :=
  {| files := {[ "rmsd.dat" := text ]};
     unreadable := ∅;
     dirs := ∅;
     stderr := [];
     root := fresh_logger;
     log_records := 0 |}.

(** The same world once [create_log] has configured logging to [run.log]. *)
Definition logging_world (lvl : Level) (text : string) : world :=
  {| files := <["run.log" := ""]> {[ "rmsd.dat" := text ]};
     unreadable := ∅;
     dirs := ∅;
     stderr := [];
     root := configured lvl "run.log";
     log_records := 0 |}.


Definition sample_command (out_ color_ : string) (lvl : option Level) : command_line :=
  {| script := "/opt/rmsd/rmsd_plot.py";
     argv := ["rmsd_plot.py"; "-o"; out_; "-t"; "RMSD"; "-c"; color_; "rmsd.dat"];
     options := {| out := out_; title := "RMSD"; color := color_; log := None;
                   log_level := lvl; input := "rmsd.dat" |} |}.
(* ===================================================================== *)
(** * Vocabulary of the further properties                                 *)
(* ===================================================================== *)

(** ** Where a computation may write

    The file handlers of the root logger write to paths in [P] only. *)
Definition handlers_within (P : string → Prop) (w : world) : Prop :=
  ∀ p, In (FileHandler p) (handlers (root w)) → P p.

(** A computation confined to the files in [P]: started with a logger
    whose file handlers are within [P], it ends with such a logger, changes
    no permission and no file outside [P], and records no directory
    outside [Q]. *)
Definition confined (P Q : string → Prop) {A} (m : M A) : Prop :=
  ∀ w, handlers_within P w →
    handlers_within P (snd (m w))
    ∧ unreadable (snd (m w)) = unreadable w
    ∧ (∀ p, ¬ P p → files (snd (m w)) !! p = files w !! p)
    ∧ (∀ d, d ∈ dirs (snd (m w)) → d ∈ dirs w ∨ Q d).



(** The level [create_log] sets: the default INFO without a level, else
    the level of the global [args], whatever level was passed; [None] for
    the missing key. *)
Definition level_chosen (args : namespace) (lvl : option Level) : option Level :=
  match lvl with
  | None => Some INFO
  | Some _ => log_level args
  end.

(** ** Texts and their lines *)

(** The text of [lines], each followed by the line terminator [eol]. *)
Definition text_of_lines_with (eol : string) (lines : list string) : string :=
  fold_right (fun line acc => line +:+ eol +:+ acc) "" lines.

Definition crlf : string := String CR nl.
Definition cr : string := String CR "".

(** A line: a string without line feed and carriage return. *)
Definition is_line_char (c : ascii) : bool :=
  negb (Ascii.eqb c LF) && negb (Ascii.eqb c CR).

Definition is_line (s : string) : bool :=
  forallb is_line_char (list_ascii_of_string s).

(** A line of white space only. *)
Definition is_blank (s : string) : bool :=
  forallb is_space (list_ascii_of_string s).

(** What a result returns, if it does. *)
Definition returned {A} (r : result A) : option A :=
  match r with
  | Ok a => Some a
  | Raise _ => None
  end.

(** ** Decimal integers *)

Definition is_digit (c : ascii) : bool :=
  match digit_value c with
  | Some _ => true
  | None => false
  end.

(** A non-empty string of decimal digits, and the number it denotes. *)
Definition is_decimal (s : string) : bool :=
  negb (string_eqb s "") && forallb is_digit (list_ascii_of_string s).

Definition digit_or_zero (c : ascii) : Z :=
  match digit_value c with
  | Some d => d
  | None => 0%Z
  end.

Definition decimal_value (s : string) : Z :=
  fold_left (fun acc c => (10 * acc + digit_or_zero c)%Z) (list_ascii_of_string s) 0%Z.

(** ** The run in two steps *)


(** The world [w] with the text of one file replaced. *)
Definition with_file (path text : string) (w : world) : world :=
  set_files (fun fs => <[path := text]> fs) w.

(** ** More sample inputs *)

(** The scenario with the line terminators of another system. *)
Definition scenario_lines : list string := ["0 0.5"; "1 NA"; "2 1.2"].
(** Frame numbers written as integers. *)
Definition integer_lines : list string := ["10 0.5"; "20 0.6"].
(** A world with the same table under two line terminators. *)
Definition two_files_world (text1 text2 : string) : world :=
  {| files := <["windows.dat" := text2]> {[ "rmsd.dat" := text1 ]};
     unreadable := ∅;
     dirs := ∅;
     stderr := [];
     root := fresh_logger;
     log_records := 0 |}.
(** A world with a log left by an earlier run. *)
Definition old_log_world : world :=
  {| files := <["run.log" := "an earlier run"]> {[ "rmsd.dat" := scenario_text ]};
     unreadable := ∅;
     dirs := ∅;
     stderr := [];
     root := fresh_logger;
     log_records := 0 |}.

(** ** Paths *)


(* ===================================================================== *)
(** * Lemmas on strings and paths                                          *)
(* ===================================================================== *)

Lemma string_append_assoc (a b c : string) : (a +:+ b) +:+ c = a +:+ (b +:+ c).
Proof.
  induction a as [|x a IH]; [reflexivity|].
  change (String x ((a +:+ b) +:+ c) = String x (a +:+ (b +:+ c))).
  rewrite IH. reflexivity.
Qed.

Lemma string_append_empty_r (a : string) : a +:+ "" = a.
Proof.
  induction a as [|x a IH]; [reflexivity|].
  change (String x (a +:+ "") = String x a).
  rewrite IH. reflexivity.
Qed.

Lemma append_cons c s t : String c s +:+ t = String c (s +:+ t).
Proof. reflexivity. Qed.

Lemma append_nil t : "" +:+ t = t.
Proof. reflexivity. Qed.

Lemma substring_whole s : String.substring 0 (String.length s) s = s.
Proof. induction s as [|c s IH]; simpl; [reflexivity|]. rewrite IH. reflexivity. Qed.


(** ** The last character *)











(** ** Prefixes and suffixes *)








(** ** The last slash *)










(** ** [dirname] and [path_join] *)







(* ===================================================================== *)
(** * Lemmas on [genfromtxt]                                               *)
(* ===================================================================== *)

Lemma from_first_values_rows lines :
  rows_of_lines (from_first_values lines) = rows_of_lines lines.
Proof.
  unfold rows_of_lines.
  induction lines as [|line rest IH]; simpl; [reflexivity|].
  destruct (split_line line) eqn:E; simpl.
  - exact IH.
  - rewrite E. reflexivity.
Qed.

Lemma first_values_width lines :
  length (match from_first_values lines with
          | [] => []
          | line :: _ => split_line line
          end) = width (rows_of_lines lines).
Proof.
  unfold width, rows_of_lines.
  induction lines as [|line rest IH]; simpl; [reflexivity|].
  destruct (split_line line) eqn:E; simpl.
  - exact IH.
  - rewrite E. reflexivity.
Qed.

Lemma parse_lines_rows k i lines :
  fst (parse_lines k i lines) = List.filter (has_width k) (rows_of_lines lines).
Proof.
  unfold rows_of_lines.
  revert i. induction lines as [|line rest IH]; intros i; simpl; [reflexivity|].
  specialize (IH (S i)).
  destruct (parse_lines k (S i) rest) as [rows invalid]; simpl in IH.
  unfold nonblank at 1, has_width.
  destruct (length (split_line line) =? 0)%nat eqn:E0; simpl; [exact IH|].
  destruct (length (split_line line) =? k)%nat eqn:Ek; simpl; [f_equal|]; exact IH.
Qed.

Lemma parse_lines_invalid k i lines :
  snd (parse_lines k i lines) = [] ↔
  forallb (has_width k) (rows_of_lines lines) = true.
Proof.
  unfold rows_of_lines.
  revert i. induction lines as [|line rest IH]; intros i; simpl; [tauto|].
  specialize (IH (S i)).
  destruct (parse_lines k (S i) rest) as [rows invalid]; simpl in IH.
  unfold nonblank at 1, has_width at 1.
  destruct (length (split_line line) =? 0)%nat eqn:E0; simpl; [exact IH|].
  destruct (length (split_line line) =? k)%nat eqn:Ek; simpl; [exact IH|].
  split; discriminate.
Qed.

Lemma filter_all_true {A} (p : A → bool) (l : list A) :
  forallb p l = true → List.filter p l = l.
Proof.
  induction l as [|a l IH]; simpl; [reflexivity|].
  intros H. apply andb_prop in H as [Ha Hl]. rewrite Ha, IH; auto.
Qed.

(** [genfromtxt] on the lines of a file, in terms of its data rows. *)
Lemma genfromtxt_lines_rows lines :
  let rows := rows_of_lines lines in
  genfromtxt_lines lines =
    if forallb (has_width (width rows)) rows
    then Ok (squeeze (np_array (width rows) (map convert_row rows)))
    else Raise (InvalidLines (width rows)
                  (snd (parse_lines (width rows) 0 (from_first_values lines)))).
Proof.
  intros rows. unfold genfromtxt_lines.
  rewrite first_values_width. fold rows.
  pose proof (parse_lines_rows (width rows) 0 (from_first_values lines)) as Hr.
  pose proof (parse_lines_invalid (width rows) 0 (from_first_values lines)) as Hi.
  rewrite from_first_values_rows in Hr, Hi. fold rows in Hr, Hi.
  destruct (parse_lines (width rows) 0 (from_first_values lines)) as [rs invalid].
  simpl in Hr, Hi. subst rs.
  destruct (forallb (has_width (width rows)) rows) eqn:E.
  - rewrite (proj2 Hi eq_refl). rewrite filter_all_true by exact E. reflexivity.
  - destruct invalid; [|reflexivity].
    destruct Hi as [Hi _]. discriminate (Hi eq_refl).
Qed.

(* ===================================================================== *)
(** * Lemmas on the array part of [extract_data]                           *)
(* ===================================================================== *)

Lemma select_not_filter (rows : list (list pyfloat)) :
  select_not (map (existsb isnan) rows) rows =
  List.filter (fun r => negb (existsb isnan r)) rows.
Proof.
  induction rows as [|r rows IH]; simpl; [reflexivity|].
  destruct (existsb isnan r); simpl; rewrite IH; reflexivity.
Qed.

Lemma filter_map_comm {A B} (f : A → B) (p : B → bool) (l : list A) :
  List.filter p (map f l) = map f (List.filter (fun a => p (f a)) l).
Proof.
  induction l as [|a l IH]; simpl; [reflexivity|].
  destruct (p (f a)); simpl; rewrite IH; reflexivity.
Qed.

Lemma squeeze_table k (data : list (list pyfloat)) :
  (2 <= length data)%nat → (2 <= k)%nat →
  squeeze (np_array k data) = Array2 k data.
Proof.
  intros Hn Hk.
  destruct data as [|r1 [|r2 data]]; simpl in Hn; try lia.
  destruct k as [|[|k]]; try lia. reflexivity.
Qed.

Lemma records_of_frame_of_rows kept :
  records_of (frame_of_rows kept) = map record_of_row kept.
Proof.
  unfold records_of, frame_of_rows; simpl.
  induction kept as [|r kept IH]; simpl; [reflexivity|].
  rewrite IH. reflexivity.
Qed.

Lemma len_frame_of_rows kept : len (frame_of_rows kept) = length kept.
Proof. unfold len, frame_of_rows; simpl. apply length_map. Qed.

Lemma frame_of_table k (rows : list (list string)) :
  (2 <= k)%nat →
  frame_of_array (Array2 k (map convert_row rows)) =
  Ok (frame_of_rows (List.filter row_kept rows)).
Proof.
  intros Hk. unfold frame_of_array; simpl.
  rewrite select_not_filter, filter_map_comm.
  assert (H0 : (0 <? k)%nat = true) by (apply Nat.ltb_lt; lia).
  assert (H1 : (1 <? k)%nat = true) by (apply Nat.ltb_lt; lia).
  rewrite H0; simpl. rewrite H1; simpl.
  unfold frame_of_rows, row_kept, row_has_nan.
  rewrite !map_map. reflexivity.
Qed.

Lemma rows_of_lines_nonblank lines row :
  In row (rows_of_lines lines) → (1 <= length row)%nat.
Proof.
  unfold rows_of_lines. intros H. apply filter_In in H as [_ H].
  unfold nonblank in H. destruct (length row); [discriminate|lia].
Qed.

(** [extract_data] on the text of a well-formed file. *)
Lemma extract_text_well_formed text :
  well_formed text = true →
  extract_text text = Ok (frame_of_rows (List.filter row_kept (data_rows text))).
Proof.
  unfold well_formed, well_formed_rows, extract_text, data_rows.
  intros H. apply andb_prop in H as [H Hu]. apply andb_prop in H as [Hn Hk].
  apply Nat.leb_le in Hn, Hk.
  rewrite genfromtxt_lines_rows. cbv zeta. rewrite Hu. simpl.
  rewrite squeeze_table; [|rewrite length_map; exact Hn|exact Hk].
  apply frame_of_table. exact Hk.
Qed.

(** [extract_data] on the text of any other file: it raises. *)
Lemma extract_text_ill_formed text :
  well_formed text = false →
  ∃ e, extract_text text = Raise e ∧ is_table_error e = true.
Proof.
  unfold well_formed, well_formed_rows, extract_text, data_rows.
  intros H. rewrite genfromtxt_lines_rows. cbv zeta.
  pose proof (rows_of_lines_nonblank (readlines text)) as Hnb.
  pose proof (parse_lines_invalid (width (rows_of_lines (readlines text))) 0
                (from_first_values (readlines text))) as Hi.
  rewrite from_first_values_rows in Hi.
  destruct (forallb _ (rows_of_lines (readlines text))) eqn:Hu.
  - rewrite andb_true_r in H. simpl.
    destruct (rows_of_lines (readlines text)) as [|r1 [|r2 rows]]; simpl in *.
    + eexists; split; reflexivity.
    + specialize (Hnb r1 (or_introl eq_refl)). unfold width; simpl.
      destruct (length r1) as [|[|k]]; [lia| |]; eexists; split; reflexivity.
    + specialize (Hnb r1 (or_introl eq_refl)). unfold width in *; simpl in *.
      destruct (length r1) as [|[|k]]; [lia| |discriminate].
      simpl. eexists; split; reflexivity.
  - simpl. destruct (snd (parse_lines _ 0 _)) eqn:Es.
    + destruct Hi as [Hi _]. discriminate (Hi eq_refl).
    + eexists; split; reflexivity.
Qed.

Lemma extract_text_ok_iff text :
  is_ok (extract_text text) = well_formed text.
Proof.
  destruct (well_formed text) eqn:E.
  - rewrite extract_text_well_formed by exact E. reflexivity.
  - destruct (extract_text_ill_formed text E) as (e & -> & _). reflexivity.
Qed.

(* ===================================================================== *)
(** * Lemmas on logging                                                    *)
(* ===================================================================== *)

Section Logging.

Variable asctime : nat → string.

(** What a handler call changes: the files of the file handlers and the
    console, nothing else; it never raises. *)
Lemma call_handlers_frame line hs w :
  fst (call_handlers line hs w) = Ok tt ∧
  unreadable (snd (call_handlers line hs w)) = unreadable w ∧
  dirs (snd (call_handlers line hs w)) = dirs w ∧
  root (snd (call_handlers line hs w)) = root w ∧
  log_records (snd (call_handlers line hs w)) = log_records w ∧
  ∀ p, ¬ In (FileHandler p) hs →
       files (snd (call_handlers line hs w)) !! p = files w !! p.
Proof.
  revert w. induction hs as [|h hs IH]; intros w; simpl.
  - repeat split; auto.
  - unfold bind. destruct h as [path|]; simpl.
    + destruct (IH (set_files (fun fs => <[path := default "" (fs !! path) +:+ (line +:+ nl)]> fs) w))
        as (H1 & H2 & H3 & H4 & H5 & H6).
      repeat split; auto.
      all: intros p Hp; rewrite H6 by tauto; simpl.
      all: apply lookup_insert_ne; intros ->; tauto.
    + destruct (IH (set_stderr (fun l => (l ++ [line])%list) w))
        as (H1 & H2 & H3 & H4 & H5 & H6).
      repeat split; auto.
      all: intros p Hp; rewrite H6 by (intros [?|?]; [discriminate|tauto]); reflexivity.
Qed.

Lemma logging_log_frame l msg w :
  fst (logging_log asctime l msg w) = Ok tt ∧
  unreadable (snd (logging_log asctime l msg w)) = unreadable w ∧
  dirs (snd (logging_log asctime l msg w)) = dirs w ∧
  level (root (snd (logging_log asctime l msg w))) = level (root w) ∧
  handlers (root (snd (logging_log asctime l msg w))) = handlers_after_log (root w) ∧
  ∀ p, ¬ In (FileHandler p) (handlers (root w)) →
       files (snd (logging_log asctime l msg w)) !! p = files w !! p.
Proof.
  unfold logging_log, bind, basicConfig, modify, get, ret, handlers_after_log; simpl.
  set (r' := match handlers (root w) with
             | [] => {| level := level (root w); handlers := [StreamHandler]; fmt := BasicFormat |}
             | _ :: _ => root w
             end).
  assert (Hl : level r' = level (root w)) by (subst r'; destruct (handlers (root w)); reflexivity).
  assert (Hh : handlers r' = match handlers (root w) with [] => [StreamHandler] | hs => hs end).
  { subst r'. destruct (handlers (root w)) eqn:E; simpl; [reflexivity|exact E]. }
  assert (Hin : ∀ p, ¬ In (FileHandler p) (handlers (root w)) → ¬ In (FileHandler p) (handlers r')).
  { intros p Hp. rewrite Hh. destruct (handlers (root w)); [|exact Hp].
    intros [?|[]]; discriminate. }
  destruct (level_no (level r') <=? level_no l)%nat; simpl.
  - match goal with |- context [call_handlers ?ln ?hs ?w0] =>
      destruct (call_handlers_frame ln hs w0) as (H1 & H2 & H3 & H4 & H5 & H6);
      destruct (call_handlers ln hs w0) as [res w1] eqn:E
    end.
    simpl in *. subst res. rewrite H4. repeat split; auto.
  - repeat split; auto.
Qed.

Lemma logging_log_configured lvl log_path l msg w :
  root w = configured lvl log_path →
  logging_log asctime l msg w = (Ok tt, log_if asctime lvl log_path l msg w).
Proof.
  destruct w as [fs ur ds err r n]; simpl. intros ->.
  unfold logging_log, log_if, enabled, log_to, bind, basicConfig, modify, get, ret; simpl.
  destruct (level_no lvl <=? level_no l)%nat; reflexivity.
Qed.


End Logging.

(* ===================================================================== *)
(** * Lemmas on [extract_data]                                             *)
(* ===================================================================== *)

Section ExtractData.

Variable asctime : nat → string.

Lemma extract_data_missing path w :
  files w !! path = None →
  extract_data asctime path w
    = (Raise (if bool_decide (path ∈ dirs w) then IsADirectoryError path
              else FileNotFoundError path), w).
Proof.
  intros H. unfold extract_data, bind, read_file. rewrite H.
  destruct (bool_decide (path ∈ dirs w)); reflexivity.
Qed.

Lemma extract_data_unreadable path w text :
  files w !! path = Some text → path ∈ unreadable w →
  extract_data asctime path w = (Raise (PermissionError path), w).
Proof.
  intros H Hu. unfold extract_data, bind, read_file. rewrite H.
  destruct (decide (path ∈ unreadable w)); [reflexivity|contradiction].
Qed.

Lemma extract_data_readable path w text :
  files w !! path = Some text → path ∉ unreadable w →
  extract_data asctime path w =
    match extract_text text with
    | Ok df => (Ok df, snd (logging_info asctime (count_message df) w))
    | Raise e => (Raise e, w)
    end.
Proof.
  intros H Hu. unfold extract_data, bind, read_file, lift. rewrite H.
  destruct (decide (path ∈ unreadable w)); [contradiction|].
  destruct (extract_text text) as [df|e]; [|reflexivity].
  fold (count_message df). unfold logging_info.
  destruct (logging_log_frame asctime INFO (count_message df) w) as (Hok & _).
  destruct (logging_log asctime INFO (count_message df) w) as [r w']; simpl in *.
  subst r. reflexivity.
Qed.

Lemma extract_data_well_formed path w text :
  files w !! path = Some text → path ∉ unreadable w → well_formed text = true →
  fst (extract_data asctime path w) =
    Ok (frame_of_rows (List.filter row_kept (data_rows text))).
Proof.
  intros H Hu Hwf. rewrite (extract_data_readable path w text H Hu).
  rewrite (extract_text_well_formed text Hwf). reflexivity.
Qed.

Lemma extract_data_ill_formed path w text :
  files w !! path = Some text → path ∉ unreadable w → well_formed text = false →
  ∃ e, extract_data asctime path w = (Raise e, w) ∧ is_table_error e = true.
Proof.
  intros H Hu Hwf. rewrite (extract_data_readable path w text H Hu).
  destruct (extract_text_ill_formed text Hwf) as (e & -> & He).
  exists e. split; [reflexivity|exact He].
Qed.

Lemma extract_data_configured path w text lvl log_path df :
  files w !! path = Some text → path ∉ unreadable w →
  extract_text text = Ok df →
  root w = configured lvl log_path →
  extract_data asctime path w = (Ok df, log_if asctime lvl log_path INFO (count_message df) w).
Proof.
  intros H Hu Hdf Hr. rewrite (extract_data_readable path w text H Hu), Hdf.
  unfold logging_info. rewrite (logging_log_configured asctime lvl log_path) by exact Hr.
  reflexivity.
Qed.

End ExtractData.

(* ===================================================================== *)
(** * Lemmas on lists and rows                                             *)
(* ===================================================================== *)

Lemma length_filter_negb {A} (p : A → bool) (l : list A) :
  length (List.filter (fun a => negb (p a)) l) = (length l - length (List.filter p l))%nat.
Proof.
  induction l as [|a l IH]; simpl; [reflexivity|].
  assert (Hle : (length (List.filter p l) <= length l)%nat) by apply List.filter_length_le.
  destruct (p a); simpl; rewrite IH; lia.
Qed.

Lemma filter_sublist_of {A} (p : A → bool) (l : list A) :
  List.filter p l `sublist_of` l.
Proof.
  induction l as [|a l IH]; simpl; [constructor|].
  destruct (p a); [apply sublist_skip|apply sublist_cons]; exact IH.
Qed.

Lemma astype_int_range x : (int64_min <= astype_int x <= int64_max)%Z.
Proof.
  unfold astype_int.
  destruct (truncate x) as [t|]; [|unfold int64_min, int64_max; lia].
  destruct ((int64_min <=? t)%Z && (t <=? int64_max)%Z) eqn:E.
  - apply andb_prop in E as [E1 E2]. apply Z.leb_le in E1, E2. lia.
  - unfold int64_min, int64_max; lia.
Qed.

Lemma existsb_nth_false {A} (p : A → bool) (l : list A) (i : nat) (d : A) :
  existsb p l = false → (i < length l)%nat → p (List.nth i l d) = false.
Proof.
  revert i. induction l as [|a l IH]; intros i; simpl; [lia|].
  intros H Hi. apply orb_false_elim in H as [Ha Hl].
  destruct i as [|i]; [exact Ha|]. apply IH; [exact Hl|lia].
Qed.

(** In a well-formed table every row has the width of the first one, which
    is at least two. *)
Lemma well_formed_row_length text row :
  well_formed text = true → In row (data_rows text) → (2 <= length row)%nat.
Proof.
  unfold well_formed, well_formed_rows. intros H Hin.
  apply andb_prop in H as [H Hu]. apply andb_prop in H as [_ Hk].
  apply Nat.leb_le in Hk.
  rewrite forallb_forall in Hu. specialize (Hu row Hin).
  unfold has_width in Hu. apply Nat.eqb_eq in Hu. lia.
Qed.

(* ===================================================================== *)
(** * Lemmas on floats: the mantissa of a parsed number                    *)
(* ===================================================================== *)

Ltac pow2_side :=
  first [ lia
        | apply Z.pow_pos_nonneg; lia
        | apply Z.pow_nonzero; lia
        | apply Z.lt_le_incl, Z.pow_pos_nonneg; lia ].

Lemma shr_1_m r : (0 <= shr_m r)%Z → shr_m (shr_1 r) = Z.div2 (shr_m r).
Proof.
  destruct r as [m rb sb]; simpl. destruct m as [|[p|p|]|p]; simpl; intros H; try reflexivity; lia.
Qed.

Lemma iter_shr_1_m p r :
  (0 <= shr_m r)%Z → shr_m (@SpecFloat.iter_pos shr_record shr_1 p r) = (shr_m r / 2 ^ Zpos p)%Z.
Proof.
  revert r. induction p as [p IH|p IH|]; intros r Hr; simpl.
  - assert (H1 : (0 <= shr_m (shr_1 r))%Z).
    { rewrite shr_1_m by exact Hr. rewrite Z.div2_div. apply Z.div_pos; lia. }
    assert (H2 : (0 <= shr_m (@SpecFloat.iter_pos shr_record shr_1 p (shr_1 r)))%Z).
    { rewrite IH by exact H1. apply Z.div_pos; [exact H1|]. apply Z.pow_pos_nonneg; lia. }
    rewrite IH by exact H2. rewrite IH by exact H1. rewrite shr_1_m by exact Hr.
    rewrite Z.div2_div, !Z.div_div by pow2_side.
    f_equal.
    replace (Z.pos p~1)%Z with (1 + Z.pos p + Z.pos p)%Z by lia.
    rewrite !Z.pow_add_r by lia. rewrite Z.pow_1_r. lia.
  - assert (H2 : (0 <= shr_m (@SpecFloat.iter_pos shr_record shr_1 p r))%Z).
    { rewrite IH by exact Hr. apply Z.div_pos; [exact Hr|]. apply Z.pow_pos_nonneg; lia. }
    rewrite IH by exact H2. rewrite IH by exact Hr.
    rewrite Z.div_div by pow2_side.
    f_equal.
    replace (Z.pos p~0)%Z with (Z.pos p + Z.pos p)%Z by lia.
    rewrite Z.pow_add_r by lia. reflexivity.
  - rewrite shr_1_m by exact Hr. rewrite Z.div2_div. reflexivity.
Qed.

Lemma digits2_pos_bound m : (Zpos m < 2 ^ Zpos (digits2_pos m))%Z.
Proof.
  induction m as [m IH|m IH|]; simpl digits2_pos.
  - rewrite Pos2Z.inj_succ, Z.pow_succ_r by lia. lia.
  - rewrite Pos2Z.inj_succ, Z.pow_succ_r by lia. lia.
  - reflexivity.
Qed.

Lemma Zdigits2_bound m : (0 <= m)%Z → (m < 2 ^ Zdigits2 m)%Z.
Proof.
  destruct m as [|p|p]; simpl; intros H; [reflexivity|apply digits2_pos_bound|lia].
Qed.

Lemma Zdigits2_nonneg m : (0 <= Zdigits2 m)%Z.
Proof. destruct m; simpl; lia. Qed.

Lemma fexp_lower x : (x - prec <= fexp prec emax x)%Z.
Proof. unfold fexp. lia. Qed.

Lemma shr_m_nonneg r e n : (0 <= shr_m r)%Z → (0 <= shr_m (fst (shr r e n)))%Z.
Proof.
  intros H. unfold shr. destruct n as [|p|p]; simpl; try exact H.
  rewrite iter_shr_1_m by exact H. apply Z.div_pos; [exact H|]. apply Z.pow_pos_nonneg; lia.
Qed.

Lemma shr_record_of_loc_m m l : shr_m (shr_record_of_loc m l) = m.
Proof. destruct l as [|[| |]]; reflexivity. Qed.

Lemma round_nearest_even_nonneg m l : (0 <= m)%Z → (0 <= round_nearest_even m l)%Z.
Proof.
  intros H. unfold round_nearest_even. destruct l as [|[| |]]; try exact H; try lia.
  destruct (Z.even m); lia.
Qed.

(** The mantissa of a rounded value fits the precision. *)
Lemma shr_fexp_mantissa m1 e1 m :
  (0 <= m1)%Z →
  shr_m (fst (shr_fexp prec emax m1 e1 loc_Exact)) = Zpos m →
  (Zpos m < 2 ^ prec)%Z.
Proof.
  intros H1. unfold shr_fexp, shr. simpl shr_record_of_loc.
  pose proof (fexp_lower (Zdigits2 m1 + e1)) as Hf.
  pose proof (Zdigits2_bound m1 H1) as Hb.
  pose proof (Zdigits2_nonneg m1) as Hd.
  destruct (fexp prec emax (Zdigits2 m1 + e1) - e1)%Z as [|p|p] eqn:En; simpl.
  - intros <-. eapply Z.lt_le_trans; [exact Hb|]. apply Z.pow_le_mono_r; lia.
  - rewrite iter_shr_1_m by exact H1. simpl shr_m. intros Hq.
    destruct (Z.lt_ge_cases (Zdigits2 m1) (Zpos p)) as [Hlt|Hge].
    + assert (m1 < 2 ^ Zpos p)%Z.
      { eapply Z.lt_le_trans; [exact Hb|]. apply Z.pow_le_mono_r; lia. }
      rewrite Z.div_small in Hq by lia. discriminate.
    + rewrite <- Hq.
      apply Z.lt_le_trans with (2 ^ (Zdigits2 m1 - Zpos p))%Z.
      * apply Z.div_lt_upper_bound; [apply Z.pow_pos_nonneg; lia|].
        rewrite <- Z.pow_add_r by lia.
        replace (Zpos p + (Zdigits2 m1 - Zpos p))%Z with (Zdigits2 m1) by lia. exact Hb.
      * apply Z.pow_le_mono_r; lia.
  - intros <-. eapply Z.lt_le_trans; [exact Hb|]. apply Z.pow_le_mono_r; lia.
Qed.

Lemma binary_round_aux_mantissa sx mx ex lx s m e :
  (0 <= mx)%Z →
  binary_round_aux prec emax sx mx ex lx = S754_finite s m e →
  (Zpos m < 2 ^ prec)%Z.
Proof.
  intros Hm. unfold binary_round_aux.
  destruct (shr_fexp prec emax mx ex lx) as [mrs' e'] eqn:E1.
  assert (H1 : (0 <= shr_m mrs')%Z).
  { change mrs' with (fst (mrs', e')). rewrite <- E1. unfold shr_fexp.
    apply shr_m_nonneg. rewrite shr_record_of_loc_m. exact Hm. }
  pose proof (round_nearest_even_nonneg (shr_m mrs') (loc_of_shr_record mrs') H1) as H2.
  pose proof (shr_fexp_mantissa (round_nearest_even (shr_m mrs') (loc_of_shr_record mrs')) e') as H3.
  destruct (shr_fexp prec emax (round_nearest_even (shr_m mrs') (loc_of_shr_record mrs')) e' loc_Exact)
    as [mrs'' e''] eqn:E2.
  simpl in H3.
  destruct (shr_m mrs'') as [|q|q] eqn:Eq; try discriminate.
  destruct (e'' <=? emax - prec)%Z; try discriminate.
  intros [= <- <- <-]. apply H3; [exact H2|reflexivity].
Qed.

Lemma of_decimal_mantissa neg d e10 s m e :
  of_decimal neg d e10 = S754_finite s m e → (Zpos m < 2 ^ prec)%Z.
Proof.
  unfold of_decimal. destruct d as [|d|d]; try discriminate.
  destruct (0 <=? e10)%Z eqn:E.
  - apply Z.leb_le in E.
    assert (Hpos : (0 < Zpos d * 10 ^ e10)%Z).
    { apply Z.mul_pos_pos; [lia|apply Z.pow_pos_nonneg; lia]. }
    unfold binary_normalize.
    destruct (cond_Zopp neg (Zpos d * 10 ^ e10)) as [|q|q]; try discriminate.
    + unfold binary_round. destruct (shl_align _ _ _) as [mz ez].
      apply binary_round_aux_mantissa. lia.
    + unfold binary_round. destruct (shl_align _ _ _) as [mz ez].
      apply binary_round_aux_mantissa. lia.
  - unfold SFdiv_core_binary.
    set (m' := match _ with Zpos _ => _ | Z0 => _ | Zneg _ => _ end).
    pose proof (Z.div_pos m' (10 ^ (- e10))) as Hq.
    unfold Z.div in Hq.
    destruct (Z.div_eucl m' (10 ^ (- e10))) as [q r].
    apply binary_round_aux_mantissa. apply Hq.
    + subst m'. destruct (_ - _ - _)%Z; try lia. apply Z.shiftl_nonneg. lia.
    + apply Z.pow_pos_nonneg; lia.
Qed.

Lemma float_of_string_mantissa str s m e :
  float_of_string str = Some (S754_finite s m e) → (Zpos m < 2 ^ prec)%Z.
Proof.
  unfold float_of_string.
  destruct (sign _) as [neg body].
  destruct (_ || _); [discriminate|].
  destruct (string_eqb _ "nan"); [discriminate|].
  destruct (number body) as [[[d nf] rest]|]; [|discriminate].
  destruct (exponent rest) as [ex|]; [|discriminate].
  intros [= H]. eapply of_decimal_mantissa; exact H.
Qed.

(** The cast of a finite value with a fractional part cuts the fraction
    off; it cannot leave the int64 range. *)
Lemma astype_int_truncates s m e :
  (Zpos m < 2 ^ prec)%Z →
  is_integral (S754_finite s m e) = false →
  truncated_toward_zero (S754_finite s m e) (astype_int (S754_finite s m e)).
Proof.
  intros Hm Hi. simpl in Hi. apply orb_false_elim in Hi as [He _].
  apply Z.leb_gt in He.
  unfold truncated_toward_zero, astype_int, truncate.
  destruct (0 <=? e)%Z eqn:E; [apply Z.leb_le in E; lia|].
  set (p := (2 ^ (- e))%Z).
  assert (Hp : (0 < p)%Z) by (apply Z.pow_pos_nonneg; lia).
  set (a := (Zpos m / p)%Z).
  assert (Ha0 : (0 <= a)%Z) by (apply Z.div_pos; lia).
  assert (Hlo : (a * p <= Zpos m)%Z) by (rewrite Z.mul_comm; apply Z.mul_div_le; lia).
  assert (Hhi : (Zpos m < (a + 1) * p)%Z).
  { rewrite Z.mul_comm. replace (a + 1)%Z with (Z.succ a) by lia.
    apply Z.mul_succ_div_gt. lia. }
  assert (Ha : (a <= Zpos m)%Z).
  { subst a. apply Z.div_le_upper_bound; [lia|]. nia. }
  assert (Hr : (a < 2 ^ 63)%Z).
  { eapply Z.le_lt_trans; [exact Ha|]. eapply Z.lt_trans; [exact Hm|]. reflexivity. }
  assert (Hrange : (int64_min <=? (if s then - a else a))%Z
                   && ((if s then - a else a) <=? int64_max)%Z = true).
  { unfold int64_min, int64_max. apply andb_true_intro.
    split; apply Z.leb_le; destruct s; lia. }
  rewrite Hrange.
  destruct s.
  - rewrite Z.abs_opp, Z.abs_eq by lia. split; [split; assumption|lia].
  - rewrite Z.abs_eq by lia. split; [split; assumption|lia].
Qed.

Lemma nth_convert_row i row :
  List.nth i (convert_row row) nan = loose_call (List.nth i row "").
Proof.
  unfold convert_row. change nan with (loose_call ""). apply map_nth.
Qed.

(* ===================================================================== *)
(** * Lemmas on the run of [main]                                          *)
(* ===================================================================== *)

Lemma bind_ok {A B} (m : M A) (k : A → M B) w a w' :
  m w = (Ok a, w') → bind m k w = k a w'.
Proof. intros H. unfold bind. rewrite H. reflexivity. Qed.

Lemma bind_raise {A B} (m : M A) (k : A → M B) w e w' :
  m w = (Raise e, w') → bind m k w = (Raise e, w').
Proof. intros H. unfold bind. rewrite H. reflexivity. Qed.



Lemma string_eqb_false_ne (a b : string) : string_eqb a b = false → a ≠ b.
Proof. unfold string_eqb. intros H. apply String.eqb_neq. exact H. Qed.

Lemma parse_args_accepted cl w :
  accepted_output (out (options cl)) = true →
  parse_args cl w = (Ok (options cl), w).
Proof.
  unfold accepted_output, parse_args, restricted_extension. intros ->. reflexivity.
Qed.

Lemma parse_args_rejected cl w :
  accepted_output (out (options cl)) = false →
  parse_args cl w =
    (Raise (SystemExit 2),
     set_stderr (fun l => (l ++ [rejection_message (out (options cl))])%list) w).
Proof.
  unfold accepted_output, parse_args, restricted_extension. intros ->. reflexivity.
Qed.


(** [create_log] in a process whose root logger has no handler yet. *)
Lemma open_for_writing_ok path w :
  path ∉ dirs w → directory_exists (dirname path) w = true →
  open_for_writing path w = (Ok tt, w).
Proof.
  intros Hd He. unfold open_for_writing.
  rewrite bool_decide_eq_false_2 by exact Hd. rewrite He. reflexivity.
Qed.

Lemma directory_exists_set_files f d w :
  directory_exists d (set_files f w) = directory_exists d w.
Proof. reflexivity. Qed.



Section Run.

Variable asctime : nat → string.
Variable valid_color : string → bool.
Variable named_colors_by_hsv : list string.
Variable savefig_bytes : DataFrame → string → string → string → string.
Variable abspath : string → string.











Lemma savefig_format_accepted e :
  In e valid_extensions →
  string_eqb (drop 1 e) "" = false
  ∧ existsb (string_eqb (lower_case (drop 1 e))) savefig_formats = true.
Proof.
  intros H. simpl in H.
  repeat (destruct H as [<-|H]; [split; vm_compute; reflexivity|]).
  destruct H.
Qed.

(** [savefig] on an accepted output path writes to that path. *)
Lemma savefig_accepted df title_ color_ out_path :
  accepted_output out_path = true →
  savefig savefig_bytes df title_ color_ out_path
    = write_file out_path (savefig_bytes df title_ color_ out_path).
Proof.
  intros H. unfold accepted_output in H.
  apply existsb_exists in H as (e & Hin & He).
  apply String.eqb_eq in He.
  destruct (savefig_format_accepted e Hin) as [H1 H2].
  unfold savefig. rewrite He, H1, H2. reflexivity.
Qed.

Lemma write_file_ok path content w :
  path ∉ dirs w → directory_exists (dirname path) w = true →
  write_file path content w = (Ok tt, set_files (fun fs => <[path := content]> fs) w).
Proof.
  intros Hd He. unfold write_file, bind.
  rewrite (open_for_writing_ok path w Hd He). reflexivity.
Qed.



(** The run of [main] on an accepted output path without directory part:
    [os.makedirs] refuses the empty name. *)
Lemma main_no_directory cl w :
  accepted_output (out (options cl)) = true →
  dirname (out (options cl)) = "" →
  main asctime valid_color named_colors_by_hsv savefig_bytes abspath cl w =
    (Raise (FileNotFoundError ""), w).
Proof.
  intros Hout Hdir. unfold main.
  rewrite (bind_ok _ _ _ _ _ (parse_args_accepted cl w Hout)).
  apply bind_raise. unfold makedirs. rewrite Hdir. reflexivity.
Qed.

(** The run of [main] on an output path that is not accepted. *)
Lemma main_rejected cl w :
  accepted_output (out (options cl)) = false →
  main asctime valid_color named_colors_by_hsv savefig_bytes abspath cl w =
    (Raise (SystemExit 2),
     set_stderr (fun l => (l ++ [rejection_message (out (options cl))])%list) w).
Proof.
  intros H. unfold main.
  apply bind_raise. apply parse_args_rejected. exact H.
Qed.

End Run.
(* ===================================================================== *)
(** * Confinement of the effects                                           *)
(* ===================================================================== *)

Section Confinement.

Variable P Q : string → Prop.

Lemma confined_pure {A} (r : result A) : confined P Q (fun w => (r, w)).
Proof. intros w H. simpl. repeat split; auto. Qed.

Lemma confined_ret {A} (a : A) : confined P Q (ret a).
Proof. apply confined_pure. Qed.

Lemma confined_raise {A} (e : exn) : confined P Q (@raise A e).
Proof. apply confined_pure. Qed.

Lemma confined_lift {A} (r : result A) : confined P Q (lift r).
Proof. apply confined_pure. Qed.

Lemma confined_bind {A B} (m : M A) (k : A → M B) :
  confined P Q m → (∀ a, confined P Q (k a)) → confined P Q (bind m k).
Proof.
  intros Hm Hk w Hw. unfold bind.
  destruct (Hm w Hw) as (H1 & H2 & H3 & H4).
  destruct (m w) as [[a|e] w1]; simpl in *.
  - destruct (Hk a w1 H1) as (K1 & K2 & K3 & K4).
    split; [exact K1|]. split; [congruence|]. split.
    + intros p Hp. rewrite K3 by exact Hp. apply H3. exact Hp.
    + intros d Hd. destruct (K4 d Hd) as [Hd1|Hd1]; [apply H4; exact Hd1|right; exact Hd1].
  - repeat split; auto.
Qed.

Lemma confined_try_except {A} (m h : M A) :
  confined P Q m → confined P Q h → confined P Q (try_except_ValueError m h).
Proof.
  intros Hm Hh w Hw. unfold try_except_ValueError.
  destruct (Hm w Hw) as (H1 & H2 & H3 & H4).
  destruct (m w) as [[a|e] w1]; simpl in *; [repeat split; auto|].
  destruct e; simpl; try (repeat split; auto; fail).
  destruct (Hh w1 H1) as (K1 & K2 & K3 & K4).
  split; [exact K1|]. split; [congruence|]. split.
  - intros p Hp. rewrite K3 by exact Hp. apply H3. exact Hp.
  - intros d Hd. destruct (K4 d Hd) as [Hd1|Hd1]; [apply H4; exact Hd1|right; exact Hd1].
Qed.

Lemma confined_read_file path : confined P Q (read_file path).
Proof.
  intros w Hw. unfold read_file.
  destruct (files w !! path); [destruct (decide _)|destruct (bool_decide _)];
    simpl; repeat split; auto.
Qed.

Lemma confined_open_for_writing path : confined P Q (open_for_writing path).
Proof.
  intros w Hw. unfold open_for_writing.
  destruct (bool_decide _); [simpl; repeat split; auto|].
  destruct (directory_exists _ w); [simpl; repeat split; auto|].
  destruct (files w !! dirname path); simpl; repeat split; auto.
Qed.

Lemma confined_write_stderr line : confined P Q (write_stderr line).
Proof. intros w Hw. simpl. repeat split; auto. Qed.

Lemma confined_makedirs name : Q name → confined P Q (makedirs name).
Proof.
  intros Hq w Hw. unfold makedirs.
  destruct (string_eqb name ""); [simpl; repeat split; auto|].
  destruct (files w !! name); simpl; repeat split; auto.
  intros d [Hd|Hd]%elem_of_union; [|left; exact Hd].
  apply elem_of_singleton in Hd. subst d. right. exact Hq.
Qed.

Lemma confined_write_file path content : P path → confined P Q (write_file path content).
Proof.
  intros Hp. unfold write_file.
  apply confined_bind; [apply confined_open_for_writing|]. intros _.
  intros w Hw. simpl. repeat split; auto.
  intros p Hnp. apply lookup_insert_ne. intros ->. exact (Hnp Hp).
Qed.

Lemma confined_path_exists path : confined P Q (path_exists path).
Proof.
  intros w Hw. unfold path_exists. destruct (files w !! path); simpl; repeat split; auto.
Qed.

Lemma confined_os_remove path : P path → confined P Q (os_remove path).
Proof.
  intros Hp w Hw. unfold os_remove.
  destruct (files w !! path); [|destruct (bool_decide _)]; simpl; repeat split; auto.
  intros p Hnp. apply lookup_delete_ne. intros ->. exact (Hnp Hp).
Qed.

Lemma confined_open_append path : P path → confined P Q (open_append path).
Proof.
  intros Hp. unfold open_append.
  apply confined_bind; [apply confined_open_for_writing|]. intros _.
  intros w Hw. simpl. repeat split; auto.
  intros p Hnp. destruct (files w !! path); [reflexivity|].
  apply lookup_insert_ne. intros ->. exact (Hnp Hp).
Qed.

Lemma confined_basicConfig f l hs :
  (∀ p, In (FileHandler p) hs → P p) → confined P Q (basicConfig f l hs).
Proof.
  intros Hhs w Hw. unfold basicConfig, modify. simpl. repeat split; auto.
  intros p. unfold handlers_within in Hw. simpl.
  destruct (handlers (root w)) eqn:E; simpl.
  - apply Hhs.
  - rewrite E. apply Hw.
Qed.

Lemma confined_create_log args path lvl : P path → confined P Q (create_log args path lvl).
Proof.
  intros Hp. unfold create_log.
  apply confined_bind.
  { destruct lvl; [destruct (log_level args)|]; first [apply confined_ret|apply confined_raise]. }
  intros l. apply confined_bind; [apply confined_path_exists|].
  intros e. apply confined_bind.
  { destruct e; [apply confined_os_remove; exact Hp|apply confined_ret]. }
  intros _. apply confined_bind; [apply confined_open_append; exact Hp|].
  intros _. apply confined_basicConfig.
  intros p [H|[H|[]]]; [|discriminate]. injection H as <-. exact Hp.
Qed.

Variable asctime : nat → string.

Lemma confined_logging_log l msg : confined P Q (logging_log asctime l msg).
Proof.
  intros w Hw.
  destruct (logging_log_frame asctime l msg w) as (_ & H2 & H3 & _ & H5 & H6).
  split; [|split; [exact H2|split]].
  - intros p. rewrite H5. unfold handlers_after_log.
    destruct (handlers (root w)) eqn:E.
    + intros [H|[]]; discriminate.
    + intros H. apply Hw. rewrite E. exact H.
  - intros p Hp. apply H6. intros Hin. exact (Hp (Hw p Hin)).
  - intros d Hd. left. rewrite <- H3. exact Hd.
Qed.

Lemma confined_extract_data path : confined P Q (extract_data asctime path).
Proof.
  unfold extract_data.
  apply confined_bind; [apply confined_read_file|]. intros text.
  apply confined_bind; [apply confined_lift|]. intros df.
  apply confined_bind; [apply confined_logging_log|]. intros _.
  apply confined_ret.
Qed.

Variable valid_color : string → bool.
Variable named_colors_by_hsv : list string.
Variable savefig_bytes : DataFrame → string → string → string → string.
Variable abspath : string → string.

Lemma confined_plot_rmsd args df out_path title_ color_ :
  P out_path →
  accepted_output out_path = true →
  confined P Q (plot_rmsd asctime valid_color named_colors_by_hsv savefig_bytes abspath
                  args df out_path title_ color_).
Proof.
  intros Hp Hacc. unfold plot_rmsd.
  rewrite (savefig_accepted savefig_bytes df title_ color_ out_path Hacc).
  apply confined_bind.
  { apply confined_try_except.
    - unfold lineplot. destruct (valid_color color_); [apply confined_ret|apply confined_raise].
    - apply confined_bind; [apply confined_logging_log|]. intros _. apply confined_raise. }
  intros _. apply confined_bind; [apply confined_write_file; exact Hp|].
  intros _. apply confined_logging_log.
Qed.

End Confinement.

Section ConfinedRun.

Variable asctime : nat → string.
Variable valid_color : string → bool.
Variable named_colors_by_hsv : list string.
Variable savefig_bytes : DataFrame → string → string → string → string.
Variable abspath : string → string.

(** The whole run writes to the output path and the log path only, and
    creates the directory of the output only. *)
Lemma confined_main cl :
  confined (fun p => p = out (options cl) ∨ p = log_path_of cl)
           (fun d => d = dirname (out (options cl)))
    (main asctime valid_color named_colors_by_hsv savefig_bytes abspath cl).
Proof.
  set (P := fun p => p = out (options cl) ∨ p = log_path_of cl).
  set (Q := fun d => d = dirname (out (options cl))).
  intros w Hw.
  destruct (accepted_output (out (options cl))) eqn:Hacc.
  2: { rewrite (main_rejected asctime valid_color named_colors_by_hsv savefig_bytes abspath
                  cl w Hacc). simpl. repeat split; auto. }
  unfold main.
  rewrite (bind_ok _ _ _ _ _ (parse_args_accepted cl w Hacc)).
  revert w Hw. change (confined P Q
    (bind (makedirs (dirname (out (options cl))))
       (fun _ => bind (create_log (options cl) (log_path_of cl) (log_level (options cl)))
          (fun _ => bind (logging_info asctime ("version: " +:+ version))
             (fun _ => bind (logging_info asctime ("CMD: " +:+ join " " (argv cl)))
                (fun _ => bind (extract_data asctime (input (options cl)))
                   (fun df => plot_rmsd asctime valid_color named_colors_by_hsv
                                savefig_bytes abspath (options cl) df
                                (out (options cl)) (title (options cl))
                                (color (options cl))))))))).
  apply confined_bind; [apply confined_makedirs; reflexivity|]. intros _.
  apply confined_bind; [apply confined_create_log; right; reflexivity|]. intros _.
  apply confined_bind; [apply confined_logging_log|]. intros _.
  apply confined_bind; [apply confined_logging_log|]. intros _.
  apply confined_bind; [apply confined_extract_data|]. intros df.
  apply confined_plot_rmsd; [left; reflexivity|exact Hacc].
Qed.

End ConfinedRun.

(* ===================================================================== *)
(** * The run when the extraction fails; [create_log] in any world         *)
(* ===================================================================== *)





Section RunErrors.

Variable asctime : nat → string.
Variable valid_color : string → bool.
Variable named_colors_by_hsv : list string.
Variable savefig_bytes : DataFrame → string → string → string → string.
Variable abspath : string → string.


End RunErrors.

(** [create_log], whenever it returns. *)
Lemma create_log_returns args path lvl w w' :
  create_log args path lvl w = (Ok tt, w') →
  ∃ l, level_chosen args lvl = Some l
     ∧ files w' = <[path := ""]> (files w)
     ∧ root w' = match handlers (root w) with
                 | [] => configured l path
                 | _ :: _ => root w
                 end
     ∧ unreadable w' = unreadable w ∧ dirs w' = dirs w
     ∧ stderr w' = stderr w ∧ log_records w' = log_records w.
Proof.
  destruct w as [fs ur ds err r n].
  unfold create_log, level_chosen. intros H.
  assert (Hl : ∃ l, match lvl with Some _ => log_level args | None => Some INFO end = Some l
                  ∧ bind (path_exists path) (fun e =>
                      bind (if e : bool then os_remove path else ret tt) (fun _ =>
                        bind (open_append path) (fun _ =>
                          basicConfig TimedFormat (Some l) [FileHandler path; StreamHandler])))
                      {| files := fs; unreadable := ur; dirs := ds; stderr := err;
                         root := r; log_records := n |} = (Ok tt, w')).
  { destruct lvl as [l0|]; [destruct (log_level args) as [l|]|].
    - exists l. split; [reflexivity|exact H].
    - unfold bind at 1, raise in H. inversion H.
    - exists INFO. split; [reflexivity|exact H]. }
  clear H. destruct Hl as (l & Hl & H). exists l. split; [exact Hl|].
  unfold bind at 1, path_exists in H. simpl in H.
  assert (Hopen : ∀ fs' w1,
            bind (open_append path) (fun _ =>
              basicConfig TimedFormat (Some l) [FileHandler path; StreamHandler])
              {| files := fs'; unreadable := ur; dirs := ds; stderr := err;
                 root := r; log_records := n |} = (Ok tt, w1) →
            w1 = {| files := match fs' !! path with
                             | Some _ => fs'
                             | None => <[path := ""]> fs'
                             end;
                    unreadable := ur; dirs := ds; stderr := err;
                    root := match handlers r with
                            | [] => configured l path
                            | _ :: _ => r
                            end;
                    log_records := n |}).
  { intros fs' w1 Ho. unfold bind, open_append, bind in Ho.
    destruct (open_for_writing path _) as [[[]|e] w2] eqn:Eo; [|discriminate Ho].
    assert (w2 = {| files := fs'; unreadable := ur; dirs := ds; stderr := err;
                    root := r; log_records := n |}).
    { unfold open_for_writing in Eo. simpl in Eo.
      destruct (bool_decide (path ∈ ds)); [discriminate Eo|].
      destruct (directory_exists _ _); [injection Eo as <-; reflexivity|].
      destruct (fs' !! dirname path); discriminate Eo. }
    subst w2. unfold modify, basicConfig, modify in Ho. simpl in Ho.
    injection Ho as <-. unfold set_root, set_files, configured. simpl.
    destruct (handlers r); reflexivity. }
  destruct (fs !! path) as [old|] eqn:E.
  - unfold bind at 1, os_remove in H. simpl in H. rewrite E in H.
    apply Hopen in H. subst w'. simpl.
    rewrite lookup_delete_eq, insert_delete_eq. repeat split; reflexivity.
  - destruct (bool_decide (path ∈ ds)) eqn:Ed.
    + unfold bind at 1, os_remove in H. simpl in H. rewrite E, Ed in H. discriminate H.
    + unfold bind at 1, ret in H.
      apply Hopen in H. subst w'. simpl. rewrite E. repeat split; reflexivity.
Qed.

(* ===================================================================== *)
(** * Lines, terminators and blank lines                                   *)
(* ===================================================================== *)

Lemma is_line_cons c s : is_line (String c s) = is_line_char c && is_line s.
Proof. reflexivity. Qed.

(** One line and its terminator, read by the file iterator. *)
Lemma readlines_from_line line : ∀ cur eol rest,
  is_line line = true →
  eol = nl ∨ eol = crlf ∨ (eol = cr ∧ starts_with LF rest = false) →
  readlines_from cur (line +:+ eol +:+ rest)
    = (cur +:+ line +:+ nl) :: readlines_from "" rest.
Proof.
  induction line as [|c line IH]; intros cur eol rest Hline Heol.
  - rewrite !append_nil.
    destruct Heol as [->|[->|[-> Hrest]]].
    + reflexivity.
    + reflexivity.
    + unfold cr. rewrite append_cons, append_nil.
      destruct rest as [|c' rest']; [reflexivity|].
      simpl in Hrest. simpl. rewrite Hrest. reflexivity.
  - rewrite is_line_cons in Hline. apply andb_prop in Hline as [Hc Hline].
    unfold is_line_char in Hc. apply andb_prop in Hc as [Hlf Hcr].
    apply negb_true_iff in Hlf, Hcr.
    rewrite append_cons. simpl readlines_from. rewrite Hlf, Hcr.
    rewrite (IH _ eol rest Hline Heol).
    rewrite string_append_assoc. reflexivity.
Qed.

Lemma starts_with_line_text eol lines :
  eol = cr → forallb is_line lines = true →
  starts_with LF (text_of_lines_with eol lines) = false.
Proof.
  intros -> Hl. destruct lines as [|line lines]; [reflexivity|].
  simpl in Hl. apply andb_prop in Hl as [Hline _]. simpl.
  destruct line as [|c line]; [reflexivity|].
  rewrite is_line_cons in Hline. apply andb_prop in Hline as [Hc _].
  unfold is_line_char in Hc. apply andb_prop in Hc as [Hlf _].
  apply negb_true_iff in Hlf. rewrite append_cons. simpl. exact Hlf.
Qed.

(** The file iterator gives the lines back, each with a line feed, for
    the three line terminators. *)
Lemma readlines_text_of_lines eol lines :
  eol = nl ∨ eol = crlf ∨ eol = cr →
  forallb is_line lines = true →
  readlines (text_of_lines_with eol lines) = map (fun line => line +:+ nl) lines.
Proof.
  intros Heol. unfold readlines.
  induction lines as [|line lines IH]; intros Hl; [reflexivity|].
  simpl in Hl. apply andb_prop in Hl as [Hline Hlines].
  simpl text_of_lines_with.
  rewrite (readlines_from_line line "" eol _ Hline).
  - rewrite append_nil, (IH Hlines). reflexivity.
  - destruct Heol as [H|[H|H]]; [left; exact H|right; left; exact H|].
    right; right. split; [exact H|]. apply starts_with_line_text; assumption.
Qed.

(** ** Blank lines *)

Lemma lstrip_blank s : is_blank s = true → is_blank (lstrip is_strip_char s) = true.
Proof.
  induction s as [|c s IH]; [reflexivity|].
  intros H. simpl. destruct (is_strip_char c); [|exact H].
  apply IH. simpl in H. apply andb_prop in H as [_ H]. exact H.
Qed.

Lemma rstrip_blank s : is_blank s = true → is_blank (rstrip is_strip_char s) = true.
Proof.
  induction s as [|c s IH]; [reflexivity|].
  intros H. unfold is_blank in H. simpl in H. apply andb_prop in H as [Hc H].
  specialize (IH H). simpl.
  destruct (rstrip is_strip_char s) as [|c' r] eqn:E.
  - destruct (is_strip_char c); [reflexivity|]. unfold is_blank. simpl. rewrite Hc. reflexivity.
  - unfold is_blank. simpl. rewrite Hc. exact IH.
Qed.

Lemma split_from_blank s : is_blank s = true → split_from "" s = [].
Proof.
  induction s as [|c s IH]; [reflexivity|].
  intros H. unfold is_blank in H. simpl in H. apply andb_prop in H as [Hc H].
  simpl. rewrite Hc. simpl. apply IH. exact H.
Qed.

Lemma split_line_blank s : is_blank s = true → split_line s = [].
Proof.
  intros H. unfold split_line, strip.
  destruct (string_eqb _ ""); [reflexivity|].
  apply split_from_blank. apply rstrip_blank, lstrip_blank. exact H.
Qed.

Lemma is_blank_app s t : is_blank s = true → is_blank t = true → is_blank (s +:+ t) = true.
Proof.
  intros Hs Ht. induction s as [|c s IH]; [exact Ht|].
  unfold is_blank in Hs. simpl in Hs. apply andb_prop in Hs as [Hc Hs].
  rewrite append_cons. unfold is_blank. simpl. rewrite Hc. apply IH. exact Hs.
Qed.

Lemma rows_of_lines_app l1 l2 :
  rows_of_lines (l1 ++ l2) = (rows_of_lines l1 ++ rows_of_lines l2)%list.
Proof. unfold rows_of_lines. rewrite map_app, List.filter_app. reflexivity. Qed.

(** A blank line adds no data row. *)
Lemma data_rows_blank_line l1 blank l2 :
  forallb is_line (l1 ++ blank :: l2) = true →
  is_blank blank = true →
  data_rows (text_of_lines_with nl (l1 ++ blank :: l2))
    = data_rows (text_of_lines_with nl (l1 ++ l2)).
Proof.
  intros Hl Hb. unfold data_rows.
  assert (Hl' : forallb is_line (l1 ++ l2) = true).
  { rewrite forallb_app in *. apply andb_prop in Hl as [H1 H2]. simpl in H2.
    apply andb_prop in H2 as [_ H2]. rewrite H1, H2. reflexivity. }
  rewrite !readlines_text_of_lines by (try left; auto).
  rewrite !map_app, !rows_of_lines_app. f_equal.
  simpl map. unfold rows_of_lines at 1. simpl.
  rewrite split_line_blank; [reflexivity|].
  apply is_blank_app; [exact Hb|reflexivity].
Qed.

(** The dataset depends on the data rows only. *)
Lemma returned_extract_text_rows t1 t2 :
  data_rows t1 = data_rows t2 →
  returned (extract_text t1) = returned (extract_text t2).
Proof.
  intros H.
  assert (Hwf : well_formed t1 = well_formed t2) by (unfold well_formed; rewrite H; reflexivity).
  destruct (well_formed t2) eqn:E2.
  - rewrite (extract_text_well_formed t1 Hwf), (extract_text_well_formed t2 E2), H. reflexivity.
  - destruct (extract_text_ill_formed t1 Hwf) as (e1 & -> & _).
    destruct (extract_text_ill_formed t2 E2) as (e2 & -> & _). reflexivity.
Qed.

(* ===================================================================== *)
(** * Integers are read exactly                                            *)
(* ===================================================================== *)

(** A digit is no sign, no point, no exponent mark, no underscore and no
    letter. *)
Lemma digit_is_plain c :
  is_digit c = true →
  Ascii.eqb c "-" = false ∧ Ascii.eqb c "+" = false
  ∧ Ascii.eqb (lower c) "i" = false ∧ Ascii.eqb (lower c) "n" = false.
Proof.
  destruct c as [[] [] [] [] [] [] [] []]; vm_compute; intros H;
    first [discriminate H | repeat split].
Qed.

Lemma digits_rest_all rest : ∀ acc k,
  forallb is_digit rest = true →
  digits_rest acc k rest
    = (fold_left (fun a c => (10 * a + digit_or_zero c)%Z) rest acc,
       (k + length rest)%nat, []).
Proof.
  induction rest as [|c rest IH]; intros acc k H; simpl.
  - rewrite Nat.add_0_r. reflexivity.
  - simpl in H. apply andb_prop in H as [Hc H].
    unfold is_digit in Hc. unfold digit_or_zero at 2.
    destruct (digit_value c) as [d|]; [|discriminate].
    rewrite (IH _ _ H). rewrite Nat.add_succ_r. reflexivity.
Qed.

(** [float] of a string of digits is the rounding of its number. *)
Lemma float_of_decimal s :
  is_decimal s = true →
  float_of_string s = Some (of_decimal false (decimal_value s) 0).
Proof.
  unfold is_decimal, float_of_string, decimal_value.
  intros H. apply andb_prop in H as [Hne Hd].
  destruct s as [|c s]; [discriminate|].
  simpl list_ascii_of_string in *. simpl in Hd. apply andb_prop in Hd as [Hc Hd].
  destruct (digit_is_plain c Hc) as (Hm & Hp & Hi & Hn).
  unfold sign. rewrite Hm, Hp.
  simpl map. simpl string_of_list_ascii.
  unfold string_eqb. simpl String.eqb. rewrite Hi, Hn. simpl.
  unfold number, digitpart.
  unfold is_digit in Hc. unfold digit_or_zero at 2.
  destruct (digit_value c) as [d|]; [|discriminate].
  rewrite (digits_rest_all _ _ _ Hd). simpl. reflexivity.
Qed.

(** ** Rounding an integer below [2^53] *)

Lemma digits2_pos_lower m : (2 ^ (Zpos (digits2_pos m) - 1) <= Zpos m)%Z.
Proof.
  induction m as [m IH|m IH|]; simpl digits2_pos.
  - rewrite Pos2Z.inj_succ.
    replace (Z.succ (Zpos (digits2_pos m)) - 1)%Z with (Z.succ (Zpos (digits2_pos m) - 1)) by lia.
    rewrite Z.pow_succ_r by lia. lia.
  - rewrite Pos2Z.inj_succ.
    replace (Z.succ (Zpos (digits2_pos m)) - 1)%Z with (Z.succ (Zpos (digits2_pos m) - 1)) by lia.
    rewrite Z.pow_succ_r by lia. lia.
  - reflexivity.
Qed.

Lemma digits2_pos_le_prec m : (Zpos m < 2 ^ prec)%Z → (Zpos (digits2_pos m) <= prec)%Z.
Proof.
  intros H. pose proof (digits2_pos_lower m) as Hl.
  destruct (Z.le_gt_cases (Zpos (digits2_pos m)) prec) as [Hle|Hgt]; [exact Hle|].
  exfalso. assert (2 ^ prec <= 2 ^ (Zpos (digits2_pos m) - 1))%Z.
  { apply Z.pow_le_mono_r; unfold prec in *; lia. }
  lia.
Qed.

Lemma iter_xO_value m k : Zpos (Pos.iter xO m k) = (Zpos m * 2 ^ Zpos k)%Z.
Proof.
  induction k as [|k IH] using Pos.peano_ind.
  - simpl. lia.
  - rewrite Pos.iter_succ, Pos2Z.inj_xO, IH, Pos2Z.inj_succ, Z.pow_succ_r by lia. lia.
Qed.

Lemma iter_xO_digits m k :
  Zpos (digits2_pos (Pos.iter xO m k)) = (Zpos (digits2_pos m) + Zpos k)%Z.
Proof.
  induction k as [|k IH] using Pos.peano_ind.
  - simpl. lia.
  - rewrite Pos.iter_succ. simpl digits2_pos. rewrite Pos2Z.inj_succ, IH. lia.
Qed.

(** A mantissa of full width is left as it is. *)
Lemma binary_round_aux_exact s m e :
  Zpos (digits2_pos m) = prec → (emin prec emax <= e)%Z → (e <= emax - prec)%Z →
  binary_round_aux prec emax s (Zpos m) e loc_Exact = S754_finite s m e.
Proof.
  intros Hd Hlo Hhi.
  assert (Hf : shr_fexp prec emax (Zpos m) e loc_Exact
               = ({| shr_m := Zpos m; shr_r := false; shr_s := false |}, e)).
  { unfold shr_fexp. simpl Zdigits2. rewrite Hd.
    unfold fexp. replace (Z.max (prec + e - prec) (emin prec emax) - e)%Z with 0%Z by lia.
    reflexivity. }
  unfold binary_round_aux. rewrite Hf. simpl round_nearest_even. rewrite Hf. simpl shr_m.
  apply Z.leb_le in Hhi. rewrite Hhi. reflexivity.
Qed.

(** The rounding of a positive integer below [2^53] is that integer. *)
Lemma binary_round_integer s p :
  (Zpos p < 2 ^ prec)%Z →
  ∃ m e, binary_round prec emax s p 0 = S754_finite s m e
       ∧ (e <= 0)%Z ∧ Zpos m = (Zpos p * 2 ^ (- e))%Z.
Proof.
  intros Hp. pose proof (digits2_pos_le_prec p Hp) as Hd.
  assert (Hd1 : (1 <= Zpos (digits2_pos p))%Z) by lia.
  unfold binary_round, shl_align.
  assert (Hfe : fexp prec emax (Zpos (digits2_pos p) + 0) = (Zpos (digits2_pos p) - prec)%Z).
  { unfold fexp, emin, prec, emax in *. lia. }
  rewrite Hfe.
  destruct (Zpos (digits2_pos p) - prec - 0)%Z as [|k|k] eqn:Ek.
  - exists p, 0%Z. split; [|split; [lia|simpl; lia]].
    apply binary_round_aux_exact; unfold emin, prec, emax in *; lia.
  - unfold prec in *. lia.
  - exists (Pos.iter xO p k), (Zpos (digits2_pos p) - prec)%Z.
    split; [|split; [lia|]].
    + apply binary_round_aux_exact.
      * rewrite iter_xO_digits. lia.
      * unfold emin, prec, emax in *. lia.
      * unfold prec, emax in *. lia.
    + rewrite iter_xO_value. f_equal. f_equal. lia.
Qed.

(** [float] followed by the cast to int64 gives a decimal integer below
    [2^53] back. *)
Lemma astype_int_of_decimal n :
  (0 <= n < 2 ^ prec)%Z → astype_int (of_decimal false n 0) = n.
Proof.
  intros [Hn0 Hn]. unfold of_decimal.
  destruct n as [|p|p]; [reflexivity| |lia].
  change (0 <=? 0)%Z with true. cbv iota.
  change (10 ^ 0)%Z with 1%Z. rewrite Z.mul_1_r.
  unfold cond_Zopp, binary_normalize.
  destruct (binary_round_integer false p Hn) as (m & e & -> & He & Hm).
  unfold astype_int, truncate.
  assert (Hval : (if (0 <=? e)%Z then Zpos m * 2 ^ e else Zpos m / 2 ^ (- e))%Z = Zpos p).
  { destruct (0 <=? e)%Z eqn:E.
    - apply Z.leb_le in E. assert (e = 0)%Z by lia. subst e. simpl in Hm. lia.
    - rewrite Hm. apply Z.div_mul. apply Z.pow_nonzero; lia. }
  rewrite Hval.
  assert (Hr : (int64_min <=? Zpos p)%Z && (Zpos p <=? int64_max)%Z = true).
  { apply andb_true_intro. unfold int64_min, int64_max, prec in *.
    split; apply Z.leb_le; lia. }
  rewrite Hr. reflexivity.
Qed.

(* ===================================================================== *)
(** * Paths and their extension                                            *)
(* ===================================================================== *)

(** A string is its first [n] characters followed by the others. *)
Lemma take_drop n : ∀ s, take n s +:+ drop n s = s.
Proof.
  unfold take, drop.
  induction n as [|n IH]; intros s.
  - rewrite Nat.sub_0_r, substring_whole. destruct s; reflexivity.
  - destruct s as [|c s]; [reflexivity|].
    simpl String.length. simpl String.substring.
    rewrite append_cons, IH. reflexivity.
Qed.

(** [splitext] cuts the path in two. *)
Lemma splitext_append p : fst (splitext p) +:+ snd (splitext p) = p.
Proof.
  unfold splitext.
  destruct (rfind "." p) as [dot|]; [|apply string_append_empty_r].
  destruct (_ && _); [apply take_drop|apply string_append_empty_r].
Qed.

(* ===================================================================== *)
(** * The kinds of table errors                                            *)
(* ===================================================================== *)

Lemma extract_text_no_rows text :
  data_rows text = [] → extract_text text = Raise (AxisError 1 1).
Proof.
  unfold extract_text, data_rows. intros H.
  rewrite genfromtxt_lines_rows. cbv zeta. rewrite H. reflexivity.
Qed.

Lemma extract_text_one_row text row :
  data_rows text = [row] →
  extract_text text = Raise (AxisError 1 (if (length row =? 1)%nat then 0 else 1)).
Proof.
  unfold extract_text, data_rows. intros H.
  pose proof (rows_of_lines_nonblank (readlines text) row) as Hnb.
  rewrite genfromtxt_lines_rows. cbv zeta. rewrite H in *.
  specialize (Hnb (or_introl eq_refl)).
  unfold width. simpl. unfold has_width. rewrite Nat.eqb_refl. simpl.
  destruct (length row) as [|[|k]]; [lia| |]; reflexivity.
Qed.

Lemma extract_text_one_column text :
  (2 <= length (data_rows text))%nat →
  forallb (has_width 1) (data_rows text) = true →
  extract_text text = Raise (AxisError 1 1).
Proof.
  unfold extract_text, data_rows. intros Hn Hu.
  rewrite genfromtxt_lines_rows. cbv zeta.
  destruct (rows_of_lines (readlines text)) as [|r1 [|r2 rows]] eqn:E; simpl in Hn; try lia.
  assert (Hw : width (r1 :: r2 :: rows) = 1%nat).
  { simpl in Hu. apply andb_prop in Hu as [H1 _]. unfold has_width in H1.
    apply Nat.eqb_eq in H1. exact H1. }
  rewrite Hw, Hu. reflexivity.
Qed.

Lemma extract_text_ragged text :
  forallb (has_width (width (data_rows text))) (data_rows text) = false →
  ∃ invalid, invalid ≠ []
    ∧ extract_text text = Raise (InvalidLines (width (data_rows text)) invalid).
Proof.
  unfold extract_text, data_rows. intros Hu.
  rewrite genfromtxt_lines_rows. cbv zeta. rewrite Hu.
  pose proof (parse_lines_invalid (width (rows_of_lines (readlines text))) 0
                (from_first_values (readlines text))) as Hi.
  rewrite from_first_values_rows in Hi.
  eexists. split; [|reflexivity].
  intros Hnil. apply Hi in Hnil. congruence.
Qed.

(* ===================================================================== *)
(** * [plot_rmsd] under any logger                                         *)
(* ===================================================================== *)

Section Plot.

Variable asctime : nat → string.
Variable valid_color : string → bool.
Variable named_colors_by_hsv : list string.
Variable savefig_bytes : DataFrame → string → string → string → string.
Variable abspath : string → string.

Lemma plot_rmsd_refused args df out_path title_ color_ w :
  valid_color color_ = false →
  plot_rmsd asctime valid_color named_colors_by_hsv savefig_bytes abspath
    args df out_path title_ color_ w =
    (Raise (SystemExit 1),
     snd (logging_error asctime (invalid_color_message named_colors_by_hsv (color args)) w)).
Proof.
  intros Hc.
  unfold plot_rmsd, bind at 1, try_except_ValueError, lineplot. rewrite Hc.
  unfold raise at 1. unfold bind at 1.
  fold (invalid_color_message named_colors_by_hsv (color args)).
  unfold logging_error.
  destruct (logging_log_frame asctime ERROR
              (invalid_color_message named_colors_by_hsv (color args)) w) as (Hok & _).
  destruct (logging_log asctime ERROR _ w) as [r w1]. simpl in *. subst r. reflexivity.
Qed.

Lemma plot_rmsd_accepted args df out_path title_ color_ w :
  valid_color color_ = true →
  accepted_output out_path = true →
  out_path ∉ dirs w →
  directory_exists (dirname out_path) w = true →
  plot_rmsd asctime valid_color named_colors_by_hsv savefig_bytes abspath
    args df out_path title_ color_ w =
    (Ok tt,
     snd (logging_info asctime ("RMSD plot created: " +:+ abspath out_path)
            (with_file out_path (savefig_bytes df title_ color_ out_path) w))).
Proof.
  intros Hc Ha Hd He.
  unfold plot_rmsd, bind at 1, try_except_ValueError, lineplot. rewrite Hc.
  unfold ret at 1. rewrite (savefig_accepted savefig_bytes _ _ _ _ Ha).
  unfold bind at 1. rewrite (write_file_ok _ _ _ Hd He). unfold logging_info.
  destruct (logging_log_frame asctime INFO ("RMSD plot created: " +:+ abspath out_path)
              (with_file out_path (savefig_bytes df title_ color_ out_path) w)) as (Hok & _).
  unfold with_file in *.
  destruct (logging_log asctime INFO _ _) as [r w1]. simpl in *. subst r. reflexivity.
Qed.

(** ** The run after its setup *)



End Plot.

(* ===================================================================== *)
(** * The claims                                                           *)
(* ===================================================================== *)

Lemma accepted_output_spec out_file :
  accepted_output out_file = true ↔ snd (splitext out_file) ∈ valid_extensions.
Proof.
  unfold accepted_output. rewrite existsb_exists. split.
  - intros (e & Hin & He). apply String.eqb_eq in He. subst e.
    apply list_elem_of_In. exact Hin.
  - intros Hin. exists (snd (splitext out_file)). split.
    + apply list_elem_of_In. exact Hin.
    + apply String.eqb_refl.
Qed.

Lemma not_accepted_output out_file :
  snd (splitext out_file) ∉ valid_extensions → accepted_output out_file = false.
Proof.
  intros H. destruct (accepted_output out_file) eqn:E; [|reflexivity].
  exfalso. apply H. apply accepted_output_spec. exact E.
Qed.

(** ** C1: the length of the clean dataset *)

(** C1, as stated, fails: the claim counts a row as contaminated when one
    of its two fields is missing, the code drops a row when ANY of its
    fields is.  On the two rows [0 0.5 NA] and [1 0.6 7] no row has a
    missing first or second field, yet the dataset has one record, not two. *)
Lemma C1_third_column_counterexample :
  fst (extract_data sample_clock "rmsd.dat" (sample_world three_column_text))
    = Ok {| frames := [1%Z]; RMSD := [float_0_6] |}
  ∧ length (data_rows three_column_text) = 2%nat
  ∧ length (List.filter either_field_missing (data_rows three_column_text)) = 0%nat.
Proof. vm_compute. repeat split; reflexivity. Qed.

(** C1, amended: for every readable file with at least two data rows, all
    of one width of at least two fields, [extract_data] returns a dataset
    whose length is the number of data rows minus the number of rows with a
    field, in any column, that converts to NaN (the sentinel, an unparsable
    token, a literal nan); exactly those rows are dropped and the others are
    kept, in order. *)
Theorem C1_length_counts_every_field (asctime : nat → string) path w text :
  files w !! path = Some text →
  path ∉ unreadable w →
  well_formed text = true →
  ∃ df, fst (extract_data asctime path w) = Ok df
      ∧ len df = (length (data_rows text)
                  - length (List.filter row_has_nan (data_rows text)))%nat
      ∧ records_of df = map record_of_row (List.filter row_kept (data_rows text)).
Proof.
  intros Hf Hu Hwf.
  exists (frame_of_rows (List.filter row_kept (data_rows text))).
  split; [apply (extract_data_well_formed asctime path w text Hf Hu Hwf)|].
  split; [|apply records_of_frame_of_rows].
  rewrite len_frame_of_rows. unfold row_kept. apply length_filter_negb.
Qed.

(** C1, witness: the amended statement on the three-column file. *)
Lemma C1_witness :
  ∃ df, fst (extract_data sample_clock "rmsd.dat" (sample_world three_column_text)) = Ok df
      ∧ len df = (length (data_rows three_column_text)
                  - length (List.filter row_has_nan (data_rows three_column_text)))%nat
      ∧ records_of df
        = map record_of_row (List.filter row_kept (data_rows three_column_text)).
Proof.
  apply (C1_length_counts_every_field sample_clock "rmsd.dat"
           (sample_world three_column_text) three_column_text).
  - vm_compute. reflexivity.
  - apply not_elem_of_empty.
  - vm_compute. reflexivity.
Defined.

(** ** C2: the errors of [extract_data] *)




(** ** C3: an output path with an unsupported extension *)

(** C3: when the extension of the output path is not one of the valid
    extensions, [main] ends with exit status 2 inside argument parsing: the
    only effect is the message on the console; no file and no directory is
    created or changed, logging is not set up and no record is logged, so
    neither the log file nor the artifact exists and the input is not
    read. *)
Theorem C3_unsupported_extension_rejected
    (asctime : nat → string) (valid_color : string → bool)
    (named_colors_by_hsv : list string)
    (savefig_bytes : DataFrame → string → string → string → string)
    (abspath : string → string) cl w :
  snd (splitext (out (options cl))) ∉ valid_extensions →
  ∃ w',
    main asctime valid_color named_colors_by_hsv savefig_bytes abspath cl w
      = (Raise (SystemExit 2), w')
    ∧ exit_status (Raise (SystemExit 2)) = 2%Z
    ∧ files w' = files w
    ∧ dirs w' = dirs w
    ∧ unreadable w' = unreadable w
    ∧ root w' = root w
    ∧ log_records w' = log_records w
    ∧ stderr w' = (stderr w ++ [rejection_message (out (options cl))])%list.
Proof.
  intros H. apply not_accepted_output in H.
  eexists. split.
  - apply main_rejected. exact H.
  - repeat split; reflexivity.
Qed.

(** C3, witness: the output path [result.txt]. *)
Lemma C3_witness :
  ∃ w',
    main sample_clock sample_valid_color sample_colors sample_savefig sample_abspath
      (sample_command "result.txt" "blue" None) (sample_world scenario_text)
      = (Raise (SystemExit 2), w')
    ∧ exit_status (Raise (SystemExit 2)) = 2%Z
    ∧ files w' = files (sample_world scenario_text)
    ∧ dirs w' = dirs (sample_world scenario_text)
    ∧ unreadable w' = unreadable (sample_world scenario_text)
    ∧ root w' = root (sample_world scenario_text)
    ∧ log_records w' = log_records (sample_world scenario_text)
    ∧ stderr w' = (stderr (sample_world scenario_text) ++ [rejection_message "result.txt"])%list.
Proof.
  apply (C3_unsupported_extension_rejected sample_clock sample_valid_color sample_colors
           sample_savefig sample_abspath
           (sample_command "result.txt" "blue" None) (sample_world scenario_text)).
  intros H. apply accepted_output_spec in H. vm_compute in H. discriminate H.
Defined.

(** ** C4: a colour the backend refuses *)



(** ** C5: order and values of the surviving records *)

(** C5, as stated, fails: only NaN is filtered.  The token [inf] is a
    valid number, the row [0 inf] survives, and its RMSD is not finite. *)
Lemma C5_infinite_value_counterexample :
  fst (extract_data sample_clock "rmsd.dat" (sample_world infinite_text))
    = Ok {| frames := [0%Z; 1%Z]; RMSD := [S754_infinity false; float_0_5] |}
  ∧ forallb isfinite [S754_infinity false; float_0_5] = false.
Proof. vm_compute. split; reflexivity. Qed.

(** C5, amended: for every readable well-formed file the records of the
    dataset are those of a subsequence of the data rows, in the order of the
    file; every record has an int64 frame and an RMSD that is not NaN (it
    may be infinite), and the two columns have the same length. *)
Theorem C5_order_kept_and_no_nan (asctime : nat → string) path w text :
  files w !! path = Some text →
  path ∉ unreadable w →
  well_formed text = true →
  ∃ df kept,
    fst (extract_data asctime path w) = Ok df
    ∧ kept `sublist_of` data_rows text
    ∧ records_of df = map record_of_row kept
    ∧ length (frames df) = length (RMSD df)
    ∧ Forall (fun x => isnan x = false) (RMSD df)
    ∧ Forall (fun z => (int64_min <= z <= int64_max)%Z) (frames df).
Proof.
  intros Hf Hu Hwf.
  exists (frame_of_rows (List.filter row_kept (data_rows text))),
         (List.filter row_kept (data_rows text)).
  split; [apply (extract_data_well_formed asctime path w text Hf Hu Hwf)|].
  split; [apply filter_sublist_of|].
  split; [apply records_of_frame_of_rows|].
  split; [unfold frame_of_rows; simpl; rewrite !length_map; reflexivity|].
  split.
  - unfold frame_of_rows; simpl. apply Forall_forall. intros x Hx.
    apply list_elem_of_In, in_map_iff in Hx as (row & <- & Hrow).
    apply filter_In in Hrow as [Hin Hk].
    unfold row_kept, row_has_nan in Hk. apply negb_true_iff in Hk.
    simpl. apply existsb_nth_false; [exact Hk|].
    unfold convert_row. rewrite length_map.
    pose proof (well_formed_row_length text row Hwf Hin). lia.
  - unfold frame_of_rows; simpl. apply Forall_forall. intros z Hz.
    apply list_elem_of_In, in_map_iff in Hz as (row & <- & _).
    simpl. apply astype_int_range.
Qed.

(** C5, witness: the amended statement on the file with an infinite value. *)
Lemma C5_witness :
  ∃ df kept,
    fst (extract_data sample_clock "rmsd.dat" (sample_world infinite_text)) = Ok df
    ∧ kept `sublist_of` data_rows infinite_text
    ∧ records_of df = map record_of_row kept
    ∧ length (frames df) = length (RMSD df)
    ∧ Forall (fun x => isnan x = false) (RMSD df)
    ∧ Forall (fun z => (int64_min <= z <= int64_max)%Z) (frames df).
Proof.
  apply (C5_order_kept_and_no_nan sample_clock "rmsd.dat"
           (sample_world infinite_text) infinite_text).
  - vm_compute. reflexivity.
  - apply not_elem_of_empty.
  - vm_compute. reflexivity.
Defined.

(** ** C6, C9: files with a single data row *)

(** C6: the code fails on the file whose only row is [1 NA].  [genfromtxt]
    squeezes a one-row table to one dimension and [any(axis=1)] raises;
    no dataset of length 0 is returned. *)
Theorem C6_single_missing_row_raises (asctime : nat → string) :
  extract_data asctime "rmsd.dat" (sample_world single_missing_text)
    = (Raise (AxisError 1 1), sample_world single_missing_text).
Proof. reflexivity. Qed.

(** C9: the code fails on the file whose only row is the valid row
    [0 0.5], for the same reason; no one-row dataset is returned. *)
Theorem C9_single_row_raises (asctime : nat → string) :
  extract_data asctime "rmsd.dat" (sample_world single_row_text)
    = (Raise (AxisError 1 1), sample_world single_row_text).
Proof. reflexivity. Qed.

(** ** C7: the scenario of the specification *)

(** C7: on the file with the lines [0 0.5], [1 NA], [2 1.2], with logging
    set up at level INFO, [extract_data] returns the log_records (0, 0.5) and
    (2, 1.2) and logs one record, whose message gives the count 2. *)
Theorem C7_scenario (asctime : nat → string) path w log_path :
  files w !! path = Some scenario_text →
  path ∉ unreadable w →
  root w = configured INFO log_path →
  ∃ df,
    extract_data asctime path w
      = (Ok df,
         log_to asctime log_path INFO
           "2 frames RMSD values extracted for the RMSD plot." w)
    ∧ records_of df = [(0%Z, float_0_5); (2%Z, float_1_2)]
    ∧ len df = 2%nat.
Proof.
  intros Hf Hu Hr.
  exists {| frames := [0%Z; 2%Z]; RMSD := [float_0_5; float_1_2] |}.
  split; [|split; reflexivity].
  rewrite (extract_data_configured asctime path w scenario_text INFO log_path
             {| frames := [0%Z; 2%Z]; RMSD := [float_0_5; float_1_2] |} Hf Hu);
    [reflexivity|vm_compute; reflexivity|exact Hr].
Qed.

(** C7, witness: the scenario file under the logger of [create_log]. *)
Lemma C7_witness :
  ∃ df,
    extract_data sample_clock "rmsd.dat" (logging_world INFO scenario_text)
      = (Ok df,
         log_to sample_clock "run.log" INFO
           "2 frames RMSD values extracted for the RMSD plot."
           (logging_world INFO scenario_text))
    ∧ records_of df = [(0%Z, float_0_5); (2%Z, float_1_2)]
    ∧ len df = 2%nat.
Proof.
  apply (C7_scenario sample_clock "rmsd.dat" (logging_world INFO scenario_text) "run.log").
  - vm_compute. reflexivity.
  - apply not_elem_of_empty.
  - reflexivity.
Defined.

(** ** C8: the effects of [extract_data] *)

(** C8, as stated, fails: [extract_data] logs the record count, and the
    root logger writes it to the log file and to the console. *)
Lemma C8_log_file_counterexample :
  files (logging_world INFO scenario_text) !! "run.log" = Some ""
  ∧ files (snd (extract_data sample_clock "rmsd.dat" (logging_world INFO scenario_text)))
      !! "run.log"
    = Some ("2025/04/03 10:00:00 INFO:" +:+ String TAB
              "2 frames RMSD values extracted for the RMSD plot." +:+ nl)
  ∧ stderr (snd (extract_data sample_clock "rmsd.dat" (logging_world INFO scenario_text)))
    = ["2025/04/03 10:00:00 INFO:" +:+ String TAB
         "2 frames RMSD values extracted for the RMSD plot."].
Proof. vm_compute. repeat split; reflexivity. Qed.

(** C8, amended: [extract_data] changes no file other than the files of
    the root logger's file handlers (the log file), no directory and no
    permission; when it fails it changes nothing; when it succeeds under
    the logger of [create_log] its whole effect is the one INFO record of
    the count, written when the level enables it. *)
Theorem C8_only_the_log_is_written (asctime : nat → string) path w p :
  ¬ In (FileHandler p) (handlers (root w)) →
  files (snd (extract_data asctime path w)) !! p = files w !! p
  ∧ unreadable (snd (extract_data asctime path w)) = unreadable w
  ∧ dirs (snd (extract_data asctime path w)) = dirs w
  ∧ (is_ok (fst (extract_data asctime path w)) = false →
     snd (extract_data asctime path w) = w)
  ∧ (∀ lvl log_path df,
       root w = configured lvl log_path →
       fst (extract_data asctime path w) = Ok df →
       snd (extract_data asctime path w)
         = log_if asctime lvl log_path INFO (count_message df) w).
Proof.
  intros Hp.
  destruct (files w !! path) as [text|] eqn:Hf.
  2: { rewrite (extract_data_missing asctime path w Hf). simpl.
       repeat split; auto. intros; discriminate. }
  destruct (decide (path ∈ unreadable w)) as [Hu|Hu].
  { rewrite (extract_data_unreadable asctime path w text Hf Hu). simpl.
    repeat split; auto. intros; discriminate. }
  rewrite (extract_data_readable asctime path w text Hf Hu).
  destruct (extract_text text) as [df|e] eqn:He; simpl.
  2: { repeat split; auto. intros; discriminate. }
  unfold logging_info.
  destruct (logging_log_frame asctime INFO (count_message df) w)
    as (_ & H2 & H3 & _ & _ & H6).
  repeat split; auto; try discriminate.
  intros lvl log_path df' Hr [= <-].
  rewrite (logging_log_configured asctime lvl log_path) by exact Hr. reflexivity.
Qed.

(** C8, witness: the input file itself is left as it was. *)
Lemma C8_witness :
  files (snd (extract_data sample_clock "rmsd.dat" (logging_world INFO scenario_text)))
    !! "rmsd.dat"
    = files (logging_world INFO scenario_text) !! "rmsd.dat"
  ∧ unreadable (snd (extract_data sample_clock "rmsd.dat" (logging_world INFO scenario_text)))
    = unreadable (logging_world INFO scenario_text)
  ∧ dirs (snd (extract_data sample_clock "rmsd.dat" (logging_world INFO scenario_text)))
    = dirs (logging_world INFO scenario_text)
  ∧ (is_ok (fst (extract_data sample_clock "rmsd.dat" (logging_world INFO scenario_text)))
     = false →
     snd (extract_data sample_clock "rmsd.dat" (logging_world INFO scenario_text))
     = logging_world INFO scenario_text)
  ∧ (∀ lvl log_path df,
       root (logging_world INFO scenario_text) = configured lvl log_path →
       fst (extract_data sample_clock "rmsd.dat" (logging_world INFO scenario_text)) = Ok df →
       snd (extract_data sample_clock "rmsd.dat" (logging_world INFO scenario_text))
         = log_if sample_clock lvl log_path INFO (count_message df)
             (logging_world INFO scenario_text)).
Proof.
  apply (C8_only_the_log_is_written sample_clock "rmsd.dat"
           (logging_world INFO scenario_text) "rmsd.dat").
  simpl. intros [H|[H|[]]]; discriminate H.
Defined.

(** ** C10: a frame number with a fractional part *)

(** C10, as stated, fails: a row whose first field is a finite number
    with a fractional part is dropped like any other row when one of its
    fields is missing.  In the file with the rows [0.5 NA], [1 0.5] and
    [2 0.6] the first field of the first row parses to 0.5, and the row
    gives no record. *)
Lemma C10_missing_value_counterexample :
  In ["0.5"; "NA"] (data_rows fractional_missing_text)
  ∧ float_of_string "0.5" = Some float_0_5
  ∧ isfinite float_0_5 = true
  ∧ is_integral float_0_5 = false
  ∧ fst (extract_data sample_clock "rmsd.dat" (sample_world fractional_missing_text))
    = Ok {| frames := [1%Z; 2%Z]; RMSD := [float_0_5; float_0_6] |}.
Proof. vm_compute. split; [left; reflexivity|repeat split; reflexivity]. Qed.

(** C10, amended: in a readable well-formed file, a row without NaN whose
    first field parses to a finite number with a fractional part is kept,
    and its frame is that number cut toward zero ([|z| <= |x| < |z| + 1],
    same sign). *)
Theorem C10_fractional_frame_is_truncated (asctime : nat → string) path w text row x :
  files w !! path = Some text →
  path ∉ unreadable w →
  well_formed text = true →
  In row (data_rows text) →
  row_has_nan row = false →
  float_of_string (List.nth 0 row "") = Some x →
  isfinite x = true →
  is_integral x = false →
  ∃ df,
    fst (extract_data asctime path w) = Ok df
    ∧ In (astype_int x, loose_call (List.nth 1 row "")) (records_of df)
    ∧ truncated_toward_zero x (astype_int x).
Proof.
  intros Hf Hu Hwf Hin Hnan Hx Hfin Hint.
  exists (frame_of_rows (List.filter row_kept (data_rows text))).
  split; [apply (extract_data_well_formed asctime path w text Hf Hu Hwf)|].
  split.
  - rewrite records_of_frame_of_rows.
    apply in_map_iff. exists row. split.
    + unfold record_of_row. rewrite !nth_convert_row.
      unfold loose_call at 1. rewrite Hx. reflexivity.
    + apply filter_In. split; [exact Hin|].
      unfold row_kept. rewrite Hnan. reflexivity.
  - destruct x as [s|s| |s m e]; try discriminate.
    apply astype_int_truncates; [|exact Hint].
    apply (float_of_string_mantissa _ _ _ _ Hx).
Qed.

(** C10, witness: the row [2.75 1.5] gives the frame 2. *)
Lemma C10_witness :
  ∃ df,
    fst (extract_data sample_clock "rmsd.dat" (sample_world fractional_text)) = Ok df
    ∧ In (astype_int float_2_75, loose_call (List.nth 1 ["2.75"; "1.5"] "")) (records_of df)
    ∧ truncated_toward_zero float_2_75 (astype_int float_2_75).
Proof.
  apply (C10_fractional_frame_is_truncated sample_clock "rmsd.dat"
           (sample_world fractional_text) fractional_text ["2.75"; "1.5"] float_2_75).
  - vm_compute. reflexivity.
  - apply not_elem_of_empty.
  - vm_compute. reflexivity.
  - vm_compute. right; left; reflexivity.
  - vm_compute. reflexivity.
  - vm_compute. reflexivity.
  - reflexivity.
  - reflexivity.
Defined.

(* ===================================================================== *)
(** * Further properties of the program                                    *)
(* ===================================================================== *)

(** X1: [extract_data] returns a dataset exactly when the file exists, may
    be read, and holds at least two data rows, all of one width of at least
    two fields. *)
Theorem extract_data_returns_iff (asctime : nat → string) path w :
  is_ok (fst (extract_data asctime path w)) = true ↔
  (∃ text, files w !! path = Some text ∧ (path ∉ unreadable w) ∧ well_formed text = true).
Proof.
  split.
  - intros H. destruct (files w !! path) as [text|] eqn:Hf.
    2: { rewrite (extract_data_missing asctime path w Hf) in H. discriminate H. }
    destruct (decide (path ∈ unreadable w)) as [Hu|Hu].
    { rewrite (extract_data_unreadable asctime path w text Hf Hu) in H. discriminate H. }
    exists text. split; [reflexivity|]. split; [exact Hu|].
    destruct (well_formed text) eqn:Hwf; [reflexivity|].
    destruct (extract_data_ill_formed asctime path w text Hf Hu Hwf) as (e & He & _).
    rewrite He in H. discriminate H.
  - intros (text & Hf & Hu & Hwf).
    rewrite (extract_data_well_formed asctime path w text Hf Hu Hwf). reflexivity.
Qed.

(** X2: with two data rows or more, a well-formed file whose rows all hold
    a missing value gives the empty dataset. *)
Theorem all_rows_missing_gives_empty (asctime : nat → string) path w text :
  files w !! path = Some text →
  path ∉ unreadable w →
  well_formed text = true →
  forallb row_has_nan (data_rows text) = true →
  fst (extract_data asctime path w) = Ok {| frames := []; RMSD := [] |}.
Proof.
  intros Hf Hu Hwf Hall.
  rewrite (extract_data_well_formed asctime path w text Hf Hu Hwf).
  assert (Hnone : List.filter row_kept (data_rows text) = []).
  { induction (data_rows text) as [|row rows IH]; simpl in *; [reflexivity|].
    apply andb_prop in Hall as [Hrow Hrows]. unfold row_kept at 1. rewrite Hrow. simpl.
    apply IH. exact Hrows. }
  rewrite Hnone. reflexivity.
Qed.

(** X2, witness: the rows [0 NA] and [NA 0.7]. *)
Lemma all_rows_missing_witness :
  fst (extract_data sample_clock "rmsd.dat" (sample_world all_missing_text))
    = Ok {| frames := []; RMSD := [] |}.
Proof.
  apply (all_rows_missing_gives_empty sample_clock "rmsd.dat"
           (sample_world all_missing_text) all_missing_text).
  - vm_compute. reflexivity.
  - apply not_elem_of_empty.
  - vm_compute. reflexivity.
  - vm_compute. reflexivity.
Defined.

(** X3: every readable file with exactly one data row is refused with a
    table error, whatever the row holds; nothing is changed. *)
Theorem single_row_always_raises (asctime : nat → string) path w text :
  files w !! path = Some text →
  path ∉ unreadable w →
  length (data_rows text) = 1%nat →
  ∃ e, extract_data asctime path w = (Raise e, w) ∧ is_table_error e = true.
Proof.
  intros Hf Hu Hlen. apply (extract_data_ill_formed asctime path w text Hf Hu).
  unfold well_formed, well_formed_rows. rewrite Hlen. reflexivity.
Qed.

(** X3, witness: the file with the single row [0 0.5]. *)
Lemma single_row_witness :
  ∃ e, extract_data sample_clock "rmsd.dat" (sample_world single_row_text)
       = (Raise e, sample_world single_row_text)
     ∧ is_table_error e = true.
Proof.
  apply (single_row_always_raises sample_clock "rmsd.dat"
           (sample_world single_row_text) single_row_text).
  - vm_compute. reflexivity.
  - apply not_elem_of_empty.
  - vm_compute. reflexivity.
Defined.



(** X5: an accepted output path without directory part, such as
    [rmsd.png], stops the run before logging is set up: [os.makedirs] is
    called on the empty name and raises FileNotFoundError; nothing is
    created and the exit status is 1. *)
Theorem bare_output_name_fails
    (asctime : nat → string) (valid_color : string → bool)
    (named_colors_by_hsv : list string)
    (savefig_bytes : DataFrame → string → string → string → string)
    (abspath : string → string) cl w :
  accepted_output (out (options cl)) = true →
  dirname (out (options cl)) = "" →
  main asctime valid_color named_colors_by_hsv savefig_bytes abspath cl w
    = (Raise (FileNotFoundError ""), w)
  ∧ exit_status (Raise (FileNotFoundError "")) = 1%Z.
Proof.
  intros Hout Hdir. split; [|reflexivity].
  apply main_no_directory; assumption.
Qed.

(** X5, witness: the output path [rmsd.png]. *)
Lemma bare_output_name_witness :
  main sample_clock sample_valid_color sample_colors sample_savefig sample_abspath
    (sample_command "rmsd.png" "blue" None) (sample_world scenario_text)
    = (Raise (FileNotFoundError ""), sample_world scenario_text)
  ∧ exit_status (Raise (FileNotFoundError "")) = 1%Z.
Proof.
  apply (bare_output_name_fails sample_clock sample_valid_color sample_colors
           sample_savefig sample_abspath (sample_command "rmsd.png" "blue" None)
           (sample_world scenario_text)).
  - vm_compute. reflexivity.
  - vm_compute. reflexivity.
Defined.

(* ===================================================================== *)
(** * Further properties: the run as a whole                               *)
(* ===================================================================== *)

(** X6: in a process whose root logger has no handler yet, a run changes
    no file other than the output path and the log path, whatever its
    outcome: the file at any other path holds after the run what it held
    before, and is missing after the run if it was missing before.  In
    particular the input file is left as it is unless it is named as output
    or as log. *)
Theorem run_touches_only_output_and_log
    (asctime : nat → string) (valid_color : string → bool)
    (named_colors_by_hsv : list string)
    (savefig_bytes : DataFrame → string → string → string → string)
    (abspath : string → string) cl w p :
  handlers (root w) = [] →
  p ≠ out (options cl) →
  p ≠ log_path_of cl →
  files (snd (main asctime valid_color named_colors_by_hsv savefig_bytes abspath cl w)) !! p
    = files w !! p.
Proof.
  intros Hh Hpo Hpl.
  destruct (confined_main asctime valid_color named_colors_by_hsv savefig_bytes abspath cl w)
    as (_ & _ & H3 & _).
  - intros q Hq. rewrite Hh in Hq. destruct Hq.
  - apply H3. intros [H|H]; [exact (Hpo H)|exact (Hpl H)].
Qed.

(** X6, witness: the input of a successful run. *)
Lemma run_touches_only_witness :
  files (snd (main sample_clock sample_valid_color sample_colors sample_savefig
                sample_abspath (sample_command "plots/rmsd.png" "blue" None)
                (sample_world scenario_text))) !! "rmsd.dat"
    = files (sample_world scenario_text) !! "rmsd.dat".
Proof.
  apply (run_touches_only_output_and_log sample_clock sample_valid_color sample_colors
           sample_savefig sample_abspath (sample_command "plots/rmsd.png" "blue" None)
           (sample_world scenario_text) "rmsd.dat").
  - reflexivity.
  - vm_compute. discriminate.
  - vm_compute. discriminate.
Defined.



(** X8: whenever [create_log] returns, the file at the log path is empty,
    whatever it held, and no other file is changed; a root logger without
    handler is configured with the file and console handlers at the level
    of the global [args] (INFO without a level), a root logger that has
    handlers is left as it is. *)
Theorem create_log_empties_the_log args path lvl w w' :
  create_log args path lvl w = (Ok tt, w') →
  files w' !! path = Some ""
  ∧ (∀ p, p ≠ path → files w' !! p = files w !! p)
  ∧ (handlers (root w) = [] →
     ∃ l, root w' = configured l path
        ∧ (lvl = None → l = INFO)
        ∧ (lvl ≠ None → log_level args = Some l))
  ∧ (handlers (root w) ≠ [] → root w' = root w).
Proof.
  intros H. destruct (create_log_returns args path lvl w w' H)
    as (l & Hl & Hf & Hr & _).
  split; [rewrite Hf; apply lookup_insert_eq|].
  split; [intros p Hp; rewrite Hf; apply lookup_insert_ne; congruence|].
  split.
  - intros Hh. rewrite Hh in Hr. exists l. split; [exact Hr|].
    unfold level_chosen in Hl. split.
    + intros ->. congruence.
    + intros Hn. destruct lvl; [exact Hl|congruence].
  - intros Hh. destruct (handlers (root w)); [congruence|exact Hr].
Qed.

(** X8, witness: a log left by an earlier run. *)
Lemma create_log_empties_witness :
  files (snd (create_log (options (sample_command "plots/rmsd.png" "blue" None))
                "run.log" None old_log_world)) !! "run.log" = Some ""
  ∧ (∀ p, p ≠ "run.log" →
          files (snd (create_log (options (sample_command "plots/rmsd.png" "blue" None))
                        "run.log" None old_log_world)) !! p
          = files old_log_world !! p)
  ∧ (handlers (root old_log_world) = [] →
     ∃ l, root (snd (create_log (options (sample_command "plots/rmsd.png" "blue" None))
                       "run.log" None old_log_world)) = configured l "run.log"
        ∧ (@None Level = None → l = INFO)
        ∧ (@None Level ≠ None →
           log_level (options (sample_command "plots/rmsd.png" "blue" None)) = Some l))
  ∧ (handlers (root old_log_world) ≠ [] →
     root (snd (create_log (options (sample_command "plots/rmsd.png" "blue" None))
                  "run.log" None old_log_world)) = root old_log_world).
Proof.
  apply (create_log_empties_the_log (options (sample_command "plots/rmsd.png" "blue" None))
           "run.log" None old_log_world).
  vm_compute. reflexivity.
Defined.

(* ===================================================================== *)
(** * Further properties: the extraction                                   *)
(* ===================================================================== *)

(** X9: the line terminator does not matter.  A file whose lines end with
    carriage return and line feed, or with a carriage return alone, is
    extracted exactly as the file with the same lines ended by a line feed:
    same result or same exception, same log record. *)
Theorem line_terminators_do_not_matter (asctime : nat → string) w path1 path2 lines eol :
  forallb is_line lines = true →
  eol = crlf ∨ eol = cr →
  files w !! path1 = Some (text_of_lines_with nl lines) →
  files w !! path2 = Some (text_of_lines_with eol lines) →
  path1 ∉ unreadable w →
  path2 ∉ unreadable w →
  extract_data asctime path2 w = extract_data asctime path1 w.
Proof.
  intros Hl Heol H1 H2 Hu1 Hu2.
  rewrite (extract_data_readable asctime path1 w _ H1 Hu1).
  rewrite (extract_data_readable asctime path2 w _ H2 Hu2).
  unfold extract_text.
  rewrite (readlines_text_of_lines eol lines) by tauto.
  rewrite (readlines_text_of_lines nl lines) by tauto.
  reflexivity.
Qed.

(** X9, witness: the scenario with the line ends of another system. *)
Lemma line_terminators_witness :
  extract_data sample_clock "windows.dat"
    (two_files_world (text_of_lines_with nl scenario_lines)
       (text_of_lines_with crlf scenario_lines))
  = extract_data sample_clock "rmsd.dat"
      (two_files_world (text_of_lines_with nl scenario_lines)
         (text_of_lines_with crlf scenario_lines)).
Proof.
  apply (line_terminators_do_not_matter sample_clock
           (two_files_world (text_of_lines_with nl scenario_lines)
              (text_of_lines_with crlf scenario_lines))
           "rmsd.dat" "windows.dat" scenario_lines crlf).
  - vm_compute. reflexivity.
  - left. reflexivity.
  - vm_compute. reflexivity.
  - vm_compute. reflexivity.
  - apply not_elem_of_empty.
  - apply not_elem_of_empty.
Defined.

(** X10: blank lines do not matter.  A line of white space only, wherever
    it stands in the file, changes neither whether a dataset is returned nor
    the dataset. *)
Theorem blank_lines_do_not_matter (asctime : nat → string) w path1 path2 before blank after :
  forallb is_line (before ++ blank :: after) = true →
  is_blank blank = true →
  files w !! path1 = Some (text_of_lines_with nl (before ++ after)) →
  files w !! path2 = Some (text_of_lines_with nl (before ++ blank :: after)) →
  path1 ∉ unreadable w →
  path2 ∉ unreadable w →
  returned (fst (extract_data asctime path2 w)) = returned (fst (extract_data asctime path1 w)).
Proof.
  intros Hl Hb H1 H2 Hu1 Hu2.
  rewrite (extract_data_readable asctime path1 w _ H1 Hu1).
  rewrite (extract_data_readable asctime path2 w _ H2 Hu2).
  pose proof (returned_extract_text_rows _ _ (data_rows_blank_line before blank after Hl Hb))
    as Hr.
  destruct (extract_text (text_of_lines_with nl (before ++ blank :: after)));
    destruct (extract_text (text_of_lines_with nl (before ++ after)));
    simpl in *; congruence.
Qed.

(** X10, witness: a line of two spaces after the first row. *)
Lemma blank_lines_witness :
  returned (fst (extract_data sample_clock "windows.dat"
                   (two_files_world (text_of_lines_with nl (["0 0.5"] ++ ["1 NA"; "2 1.2"]))
                      (text_of_lines_with nl (["0 0.5"] ++ "  " :: ["1 NA"; "2 1.2"])))))
  = returned (fst (extract_data sample_clock "rmsd.dat"
                     (two_files_world (text_of_lines_with nl (["0 0.5"] ++ ["1 NA"; "2 1.2"]))
                        (text_of_lines_with nl (["0 0.5"] ++ "  " :: ["1 NA"; "2 1.2"]))))).
Proof.
  apply (blank_lines_do_not_matter sample_clock
           (two_files_world (text_of_lines_with nl (["0 0.5"] ++ ["1 NA"; "2 1.2"]))
              (text_of_lines_with nl (["0 0.5"] ++ "  " :: ["1 NA"; "2 1.2"])))
           "rmsd.dat" "windows.dat" ["0 0.5"] "  " ["1 NA"; "2 1.2"]).
  - vm_compute. reflexivity.
  - vm_compute. reflexivity.
  - vm_compute. reflexivity.
  - vm_compute. reflexivity.
  - apply not_elem_of_empty.
  - apply not_elem_of_empty.
Defined.

(** X11: a frame number written as a decimal integer below [2^53] comes
    back unchanged: in a readable well-formed file, a row without NaN whose
    first field is a string of digits gives a record whose frame is the
    number the digits denote (the conversion to float and the cast to int
    lose nothing). *)
Theorem integer_frame_is_exact (asctime : nat → string) path w text row :
  files w !! path = Some text →
  path ∉ unreadable w →
  well_formed text = true →
  In row (data_rows text) →
  row_has_nan row = false →
  is_decimal (List.nth 0 row "") = true →
  (decimal_value (List.nth 0 row "") < 2 ^ 53)%Z →
  ∃ df,
    fst (extract_data asctime path w) = Ok df
    ∧ In (decimal_value (List.nth 0 row ""), loose_call (List.nth 1 row "")) (records_of df).
Proof.
  intros Hf Hu Hwf Hin Hnan Hdec Hlt.
  exists (frame_of_rows (List.filter row_kept (data_rows text))).
  split; [apply (extract_data_well_formed asctime path w text Hf Hu Hwf)|].
  rewrite records_of_frame_of_rows.
  apply in_map_iff. exists row. split.
  - unfold record_of_row. rewrite !nth_convert_row.
    unfold loose_call at 1. rewrite (float_of_decimal _ Hdec).
    rewrite astype_int_of_decimal; [reflexivity|].
    split; [|exact Hlt].
    unfold decimal_value.
    assert (Hge : ∀ l a, (0 <= a)%Z →
              (0 <= fold_left (fun acc c => 10 * acc + digit_or_zero c) l a)%Z).
    { induction l as [|c l IH]; intros a Ha; simpl; [exact Ha|].
      apply IH. unfold digit_or_zero, digit_value.
      destruct (_ && _); lia. }
    apply Hge. lia.
  - apply filter_In. split; [exact Hin|].
    unfold row_kept. rewrite Hnan. reflexivity.
Qed.

(** X11, witness: the frame 20 of the row [20 0.6]. *)
Lemma integer_frame_witness :
  ∃ df,
    fst (extract_data sample_clock "rmsd.dat"
           (sample_world (text_of_lines_with nl integer_lines))) = Ok df
    ∧ In (decimal_value (List.nth 0 ["20"; "0.6"] ""),
          loose_call (List.nth 1 ["20"; "0.6"] "")) (records_of df).
Proof.
  apply (integer_frame_is_exact sample_clock "rmsd.dat"
           (sample_world (text_of_lines_with nl integer_lines))
           (text_of_lines_with nl integer_lines) ["20"; "0.6"]).
  - vm_compute. reflexivity.
  - apply not_elem_of_empty.
  - vm_compute. reflexivity.
  - vm_compute. right; left; reflexivity.
  - vm_compute. reflexivity.
  - vm_compute. reflexivity.
  - vm_compute. reflexivity.
Defined.

(** X12: which error a readable file gives.  A file without data rows
    (empty, or blank lines only) and a file whose rows, two or more, all
    hold one field raise AxisError on a one-dimensional array; a file with
    one data row raises AxisError on a zero-dimensional array when the row
    holds one field and on a one-dimensional array otherwise; a file in
    which a row has another number of fields than the first raises the
    ValueError of [genfromtxt] for the width of the first row, with at least
    one offending line. *)
Theorem table_error_kinds (asctime : nat → string) path w text :
  files w !! path = Some text →
  path ∉ unreadable w →
  (data_rows text = [] →
   fst (extract_data asctime path w) = Raise (AxisError 1 1))
  ∧ (∀ row, data_rows text = [row] →
     fst (extract_data asctime path w)
       = Raise (AxisError 1 (if (length row =? 1)%nat then 0 else 1)))
  ∧ ((2 <= length (data_rows text))%nat →
     forallb (has_width 1) (data_rows text) = true →
     fst (extract_data asctime path w) = Raise (AxisError 1 1))
  ∧ (forallb (has_width (width (data_rows text))) (data_rows text) = false →
     ∃ invalid, invalid ≠ []
       ∧ fst (extract_data asctime path w)
         = Raise (InvalidLines (width (data_rows text)) invalid)).
Proof.
  intros Hf Hu. rewrite (extract_data_readable asctime path w text Hf Hu).
  split; [|split; [|split]].
  - intros H. rewrite (extract_text_no_rows text H). reflexivity.
  - intros row H. rewrite (extract_text_one_row text row H). reflexivity.
  - intros Hn H1. rewrite (extract_text_one_column text Hn H1). reflexivity.
  - intros H. destruct (extract_text_ragged text H) as (invalid & Hne & ->).
    exists invalid. split; [exact Hne|reflexivity].
Qed.

(** X12, witness: the empty file. *)
Lemma table_error_kinds_witness :
  fst (extract_data sample_clock "rmsd.dat" (sample_world "")) = Raise (AxisError 1 1).
Proof.
  apply (proj1 (table_error_kinds sample_clock "rmsd.dat" (sample_world "") ""
                  ltac:(vm_compute; reflexivity) ltac:(apply not_elem_of_empty))).
  vm_compute. reflexivity.
Defined.

(* ===================================================================== *)
(** * Further properties: the output path and the plot                     *)
(* ===================================================================== *)

(** X13: [restricted_extension] returns an accepted path unchanged, and a
    path is accepted only if it is a stem followed by one of the twelve
    valid extensions; every other path raises ArgumentTypeError. *)
Theorem accepted_path_ends_with_extension out_file :
  (restricted_extension out_file = Ok out_file
   ∧ ∃ stem ext, out_file = stem +:+ ext ∧ ext ∈ valid_extensions)
  ∨ (∃ msg, restricted_extension out_file = Raise (ArgumentTypeError msg)).
Proof.
  unfold restricted_extension.
  destruct (existsb (string_eqb (snd (splitext out_file))) valid_extensions) eqn:E; simpl.
  - left. split; [reflexivity|].
    exists (fst (splitext out_file)), (snd (splitext out_file)).
    split; [symmetry; apply splitext_append|].
    apply accepted_output_spec. exact E.
  - right. eexists. reflexivity.
Qed.

(** X14: [plot_rmsd] writes the figure exactly when the backend accepts
    the colour, under any state of the logger that does not log to the
    output path, for an output path with one of the valid extensions, in a
    directory that exists, that is not a directory itself: with an accepted
    colour it returns and the output path holds the figure, whatever it
    held; with a refused colour it ends with exit status 1 and the output
    path is left as it was. *)
Theorem plot_rmsd_writes_iff_color_accepted
    (asctime : nat → string) (valid_color : string → bool)
    (named_colors_by_hsv : list string)
    (savefig_bytes : DataFrame → string → string → string → string)
    (abspath : string → string) args df out_path title_ color_ w :
  ¬ In (FileHandler out_path) (handlers (root w)) →
  accepted_output out_path = true →
  directory_exists (dirname out_path) w = true →
  out_path ∉ dirs w →
  if valid_color color_
  then fst (plot_rmsd asctime valid_color named_colors_by_hsv savefig_bytes abspath
              args df out_path title_ color_ w) = Ok tt
       ∧ files (snd (plot_rmsd asctime valid_color named_colors_by_hsv savefig_bytes abspath
                       args df out_path title_ color_ w)) !! out_path
         = Some (savefig_bytes df title_ color_ out_path)
  else fst (plot_rmsd asctime valid_color named_colors_by_hsv savefig_bytes abspath
              args df out_path title_ color_ w) = Raise (SystemExit 1)
       ∧ files (snd (plot_rmsd asctime valid_color named_colors_by_hsv savefig_bytes abspath
                       args df out_path title_ color_ w)) !! out_path
         = files w !! out_path.
Proof.
  intros Hh Ha He Hd. destruct (valid_color color_) eqn:Hc.
  - rewrite (plot_rmsd_accepted asctime valid_color named_colors_by_hsv savefig_bytes abspath
               args df out_path title_ color_ w Hc Ha Hd He). simpl.
    split; [reflexivity|]. unfold logging_info.
    destruct (logging_log_frame asctime INFO ("RMSD plot created: " +:+ abspath out_path)
                (with_file out_path (savefig_bytes df title_ color_ out_path) w))
      as (_ & _ & _ & _ & _ & H6).
    rewrite H6 by exact Hh. simpl. apply lookup_insert_eq.
  - rewrite (plot_rmsd_refused asctime valid_color named_colors_by_hsv savefig_bytes abspath
               args df out_path title_ color_ w Hc). simpl.
    split; [reflexivity|]. unfold logging_error.
    destruct (logging_log_frame asctime ERROR
                (invalid_color_message named_colors_by_hsv (color args)) w)
      as (_ & _ & _ & _ & _ & H6).
    apply H6. exact Hh.
Qed.

(** X14, witness: the colour [blue] under the logger of [create_log]. *)
Lemma plot_rmsd_writes_witness :
  fst (plot_rmsd sample_clock sample_valid_color sample_colors sample_savefig sample_abspath
         (options (sample_command "rmsd.png" "blue" None))
         {| frames := [0%Z]; RMSD := [float_0_5] |} "rmsd.png" "RMSD" "blue"
         (logging_world INFO scenario_text)) = Ok tt
  ∧ files (snd (plot_rmsd sample_clock sample_valid_color sample_colors sample_savefig
                  sample_abspath
                  (options (sample_command "rmsd.png" "blue" None))
                  {| frames := [0%Z]; RMSD := [float_0_5] |} "rmsd.png" "RMSD"
                  "blue" (logging_world INFO scenario_text))) !! "rmsd.png"
    = Some (sample_savefig {| frames := [0%Z]; RMSD := [float_0_5] |} "RMSD" "blue"
              "rmsd.png").
Proof.
  apply (plot_rmsd_writes_iff_color_accepted sample_clock sample_valid_color sample_colors
           sample_savefig sample_abspath
           (options (sample_command "rmsd.png" "blue" None))
           {| frames := [0%Z]; RMSD := [float_0_5] |} "rmsd.png" "RMSD" "blue"
           (logging_world INFO scenario_text)).
  - simpl. intros [H|[H|[]]]; discriminate H.
  - vm_compute. reflexivity.
  - vm_compute. reflexivity.
  - apply not_elem_of_empty.
Defined.





(** X17: the extensions [restricted_extension] accepts are formats
    [savefig] can write: for an accepted output path [plot_rmsd] never
    ends with the unsupported-format error of [savefig], whatever the
    colour, the data and the world. *)
Theorem accepted_output_is_a_savefig_format
    (asctime : nat → string) (valid_color : string → bool)
    (named_colors_by_hsv : list string)
    (savefig_bytes : DataFrame → string → string → string → string)
    (abspath : string → string) args df out_path title_ color_ w format :
  accepted_output out_path = true →
  fst (plot_rmsd asctime valid_color named_colors_by_hsv savefig_bytes abspath
         args df out_path title_ color_ w) ≠ Raise (UnsupportedFormat format).
Proof.
  intros Ha. destruct (valid_color color_) eqn:Hc.
  - unfold plot_rmsd, bind at 1, try_except_ValueError, lineplot. rewrite Hc.
    unfold ret at 1. rewrite (savefig_accepted savefig_bytes _ _ _ _ Ha).
    unfold bind at 1, write_file, bind, open_for_writing.
    destruct (bool_decide _); [discriminate|].
    destruct (directory_exists _ w).
    + unfold modify, logging_info.
      match goal with |- context [logging_log asctime INFO ?m ?x] =>
        destruct (logging_log_frame asctime INFO m x) as (Hok & _);
        rewrite Hok
      end.
      discriminate.
    + destruct (files w !! dirname out_path); discriminate.
  - rewrite (plot_rmsd_refused asctime valid_color named_colors_by_hsv savefig_bytes abspath
               args df out_path title_ color_ w Hc). discriminate.
Qed.

(** X17, witness: the output path [rmsd.svgz]. *)
Lemma accepted_output_format_witness :
  fst (plot_rmsd sample_clock sample_valid_color sample_colors sample_savefig sample_abspath
         (options (sample_command "rmsd.svgz" "blue" None))
         {| frames := [0%Z]; RMSD := [float_0_5] |} "rmsd.svgz" "RMSD" "blue"
         (logging_world INFO scenario_text)) ≠ Raise (UnsupportedFormat "svgz").
Proof.
  apply (accepted_output_is_a_savefig_format sample_clock sample_valid_color sample_colors
           sample_savefig sample_abspath
           (options (sample_command "rmsd.svgz" "blue" None))
           {| frames := [0%Z]; RMSD := [float_0_5] |} "rmsd.svgz" "RMSD" "blue"
           (logging_world INFO scenario_text) "svgz").
  vm_compute. reflexivity.
Defined.
